(** * Water-loss dashboard: the anomaly scorer, the live-reading injector
      and the explanation text, embedded from the Python sources

    - [src/model/anomaly_detector.py]  ([detect_anomalies], [risk_level])
    - [src/utils/live_data.py]         ([generate_live_data])
    - [src/utils/explanation.py]       ([generate_explanation])

    The functions work on pandas data frames, which are mutable objects:
    they live in a heap and are passed by reference.  Numbers are exact
    rationals ([Q], compared with [==]); rounding of binary floating
    point is not part of that model.  Where rounding decides, the
    rescaling of the scorer is replayed on binary64 numbers ([Binary64]). *)

From Stdlib Require Import QArith Qminmax Lqa ZArith String Ascii List.
From Corelib Require PrimFloat.
From stdpp Require Import base option gmap strings list fin_maps.

Local Open Scope Z_scope.
Local Open Scope string_scope.

(** ** Python: exceptions and computations over a heap of objects *)

Module Python.

(** The exception classes the modelled code can raise.  [ReferenceError]
    stands for a reference that designates no object; a caller that holds
    a data frame never sees it. *)
Inductive exn : Type :=
| KeyError
| ValueError
| TypeError
| NotFittedError
| ReferenceError.

(** [__name__] of the exception class. *)
Definition exn_name (e : exn) : string :=
  match e with
  | KeyError => "KeyError"
  | ValueError => "ValueError"
  | TypeError => "TypeError"
  | NotFittedError => "NotFittedError"
  | ReferenceError => "ReferenceError"
  end.

(** Outcome of evaluating an expression: a value, or a raised exception. *)
Inductive outcome (A : Type) : Type :=
| Ok (a : A)
| Raise (e : exn).
Arguments Ok {A} a.
Arguments Raise {A} e.

(** Sequencing of outcomes: the first exception ends the evaluation. *)
Definition outcome_bind {A B} (m : outcome A) (f : A → outcome B) : outcome B :=
  match m with
  | Ok a => f a
  | Raise e => Raise e
  end.

Notation "'let?' x := m 'in' k" := (outcome_bind m (λ x, k))
  (at level 10, x pattern, m at level 100, k at level 200).

(** [mapM f l]: apply [f] from left to right, stop at the first exception. *)
Fixpoint mapM {A B : Type} (f : A → outcome B) (l : list A) : outcome (list B) :=
  match l with
  | [] => Ok []
  | a :: l' => let? b := f a in let? bs := mapM f l' in Ok (b :: bs)
  end.

Section Heap.
(** The objects of one class [O], by reference. *)
Context {O : Type}.

Definition loc : Type := positive.

(** A computation reads and writes the heap; an exception leaves the
    heap as it was when it was raised. *)
Record Py (A : Type) : Type := mkPy { run : gmap loc O → outcome A * gmap loc O }.
Arguments mkPy {A} _.
Arguments run {A} _ _.

Definition py_ret {A} (a : A) : Py A := mkPy (λ h, (Ok a, h)).

Definition py_bind {A B} (m : Py A) (f : A → Py B) : Py B :=
  mkPy (λ h, match run m h with
             | (Ok a, h') => run (f a) h'
             | (Raise e, h') => (Raise e, h')
             end).

Definition raise {A} (e : exn) : Py A := mkPy (λ h, (Raise e, h)).

Definition lift {A} (o : outcome A) : Py A := mkPy (λ h, (o, h)).

(** Read the object behind a reference. *)
Definition deref (r : loc) : Py O :=
  mkPy (λ h, match h !! r with
             | Some o => (Ok o, h)
             | None => (Raise ReferenceError, h)
             end).

(** Overwrite the object behind a reference (in-place mutation). *)
Definition assign (r : loc) (o : O) : Py unit :=
  mkPy (λ h, (Ok tt, <[r := o]> h)).

(** Construct a new object; its reference is one no object has yet. *)
Definition alloc (o : O) : Py loc :=
  mkPy (λ h, let r := fresh (dom h) in (Ok r, <[r := o]> h)).
End Heap.

Arguments Py : clear implicits.
Arguments mkPy {O A} _.
Arguments run {O A} _ _.

Notation "'let*' x := m 'in' k" := (py_bind m (λ x, k))
  (at level 10, x pattern, m at level 100, k at level 200).
Notation "'do' m 'in' k" := (py_bind m (λ _, k))
  (at level 10, m at level 100, k at level 200).

End Python.
Export Python.

(** ** numpy: floating-point cells with NaN, on exact rationals *)

Module Numpy.

(** A float is a finite number or NaN.  An operation without a finite
    result (a division by zero) gives [NaN], and [NaN] propagates. *)
Inductive float : Type :=
| Finite (q : Q)
| NaN.

Definition fneg (x : float) : float :=
  match x with Finite a => Finite (- a)%Q | NaN => NaN end.

Definition fadd (x y : float) : float :=
  match x, y with Finite a, Finite b => Finite (a + b)%Q | _, _ => NaN end.

Definition fsub (x y : float) : float :=
  match x, y with Finite a, Finite b => Finite (a - b)%Q | _, _ => NaN end.

Definition fmul (x y : float) : float :=
  match x, y with Finite a, Finite b => Finite (a * b)%Q | _, _ => NaN end.

Definition fdiv (x y : float) : float :=
  match x, y with
  | Finite a, Finite b => if Qeq_bool b 0 then NaN else Finite (a / b)%Q
  | _, _ => NaN
  end.

(** [x >= k]: false when [x] is NaN. *)
Definition fge (x : float) (k : Q) : bool :=
  match x with Finite a => Qle_bool k a | NaN => false end.

(** The finite entries of an array, in order. *)
Definition finite_entries (X : list float) : list Q :=
  omap (λ x, match x with Finite a => Some a | NaN => None end) X.

(** [np.nanmin] and [np.nanmax]: over the finite entries, NaN when there
    is none. *)
Definition nanmin (X : list float) : float :=
  match finite_entries X with
  | [] => NaN
  | a :: l => Finite (foldr Qmin a l)
  end.

Definition nanmax (X : list float) : float :=
  match finite_entries X with
  | [] => NaN
  | a :: l => Finite (foldr Qmax a l)
  end.

End Numpy.
Export Numpy.

(** ** pandas: data frames, column access, label-based access *)

Module Pandas.

(** A cell of a frame: a number, a text that is not a number, or the
    missing-value marker NaN. *)
Inductive value : Type :=
| VFloat (x : float)
| VStr (s : string).

Abbreviation VNum q := (VFloat (Finite q)).
Abbreviation VNaN := (VFloat NaN).

(** A frame holds its row labels (the index) and its columns by name;
    every column has one cell per row label.  The order of the columns
    among themselves is not modelled. *)
Record DataFrame : Type := mkDataFrame {
  df_index : list Z;
  df_columns : gmap string (list value)
}.

Definition nrows (d : DataFrame) : nat := length (df_index d).

Definition well_formed (d : DataFrame) : Prop :=
  map_Forall (λ (_ : string) (col : list value), length col = nrows d) (df_columns d).

#[global] Instance well_formed_dec d : Decision (well_formed d).
Proof. unfold well_formed. apply _. Defined.

(** The cells of row number [i] (a position, not a label), by column. *)
Definition row (d : DataFrame) (i : nat) : gmap string value :=
  omap (λ col : list value, col !! i) (df_columns d).

(** [df.copy()]: a new frame with the same labels and cells. *)
Definition copy (df : loc) : Py DataFrame loc :=
  let* d := deref df in alloc d.

(** [df[c]]: the cells of column [c]; [KeyError] when there is none. *)
Definition getitem (df : loc) (c : string) : Py DataFrame (list value) :=
  let* d := deref df in
  match df_columns d !! c with
  | Some col => py_ret col
  | None => raise KeyError
  end.

(** The columns named [cs], in that order; [KeyError] when one is missing. *)
Definition select_columns (d : DataFrame) (cs : list string) : outcome (list (list value)) :=
  mapM (λ c, match df_columns d !! c with
             | Some col => Ok col
             | None => Raise KeyError
             end) cs.

(** Row number [i] of a list of columns. *)
Definition row_of (cols : list (list value)) (i : nat) : list value :=
  (λ col : list value, default VNaN (col !! i)) <$> cols.

(** [df[[c1, ..., ck]]]: the rows of the selected columns, in the order
    asked for; [KeyError] when one of them is missing. *)
Definition getitem_list (df : loc) (cs : list string) : Py DataFrame (list (list value)) :=
  let* d := deref df in
  let* cols := lift (select_columns d cs) in
  py_ret (row_of cols <$> seq 0 (nrows d)).

(** [df[c] = vals]: set or replace column [c] of the frame itself;
    [ValueError] when [vals] has not one cell per row. *)
Definition setitem (df : loc) (c : string) (vals : list value) : Py DataFrame unit :=
  let* d := deref df in
  if decide (length vals = nrows d)
  then assign df (mkDataFrame (df_index d) (<[c := vals]> (df_columns d)))
  else raise ValueError.

(** Unary minus on a cell. *)
Definition neg (v : value) : outcome value :=
  match v with
  | VFloat x => Ok (VFloat (fneg x))
  | VStr _ => Raise TypeError
  end.

(** [cell + k] for a number [k]: the exact sum, not the sum the column's
    machine arithmetic (int64 or binary64) stores. *)
Definition add (v : value) (k : Q) : outcome value :=
  match v with
  | VFloat x => Ok (VFloat (fadd x (Finite k)))
  | VStr _ => Raise TypeError
  end.

(** [score >= k] for a number [k]: every comparison with NaN is false. *)
Definition ge (v : value) (k : Q) : outcome bool :=
  match v with
  | VFloat x => Ok (fge x k)
  | VStr _ => Raise TypeError
  end.

(** [-series] *)
Definition series_neg (s : list value) : outcome (list value) := mapM neg s.

(** [series.apply(f)] *)
Definition series_apply (f : value → outcome value) (s : list value) : outcome (list value) :=
  mapM f s.

(** [df.sample(1).index[0]]: the label of one row, chosen by the draw [u]
    of numpy's global generator; [ValueError] on a frame without rows. *)
Definition sample_label (u : Z) (df : loc) : Py DataFrame Z :=
  let* d := deref df in
  if decide (nrows d = 0%nat) then raise ValueError
  else match df_index d !! Z.to_nat (u mod Z.of_nat (nrows d)) with
       | Some l => py_ret l
       | None => raise ValueError
       end.

(** The label-based accessors address every row that carries the label. *)
Definition at_label {A} (idx : Z) (index : list Z) (f : A → A) (col : list A) : list A :=
  zip_with (λ l a, if decide (l = idx) then f a else a) index col.

Definition at_labelM {A} (idx : Z) (index : list Z) (f : A → outcome A) (col : list A)
  : outcome (list A) :=
  mapM (λ la : Z * A, if decide (la.1 = idx) then f la.2 else Ok la.2) (zip index col).

(** [df.loc[idx, c] += k]: read the cells of column [c] in the rows
    labelled [idx], add [k], write them back.  [KeyError] when the
    column or the label is missing. *)
Definition loc_iadd (df : loc) (idx : Z) (c : string) (k : Q) : Py DataFrame unit :=
  let* d := deref df in
  match df_columns d !! c with
  | None => raise KeyError
  | Some col =>
      if decide (idx ∈ df_index d)
      then let* col' := lift (at_labelM idx (df_index d) (λ v, add v k) col) in
           assign df (mkDataFrame (df_index d) (<[c := col']> (df_columns d)))
      else raise KeyError
  end.

(** [df.loc[idx, c] = v] for a label the frame has: write [v] in the rows
    labelled [idx]; a column that does not exist yet is created, with
    NaN in the other rows. *)
Definition loc_set (df : loc) (idx : Z) (c : string) (v : value) : Py DataFrame unit :=
  let* d := deref df in
  let col := default (replicate (nrows d) VNaN) (df_columns d !! c) in
  assign df (mkDataFrame (df_index d)
               (<[c := at_label idx (df_index d) (λ _, v) col]> (df_columns d))).

End Pandas.
Export Pandas.

(** ** scikit-learn: input validation, the isolation forest, the min-max scaler *)

Module Sklearn.

(** The isolation forest itself is the library's: how a forest is grown
    from a contamination rate, a seed and a training matrix, and the
    decision function of a grown forest on one sample (lower means more
    abnormal). *)
Class IsolationForestAlgorithm : Type := {
  forest : Type;
  grow : Q → Z → list (list Q) → forest;
  decision : forest → list Q → Q
}.

(** Input validation of the forest: at least one sample, finite numbers
    only (NaN is refused, as in the releases of the library whose forest
    takes no missing values). *)
Definition as_finite (v : value) : outcome Q :=
  match v with
  | VNum q => Ok q
  | _ => Raise ValueError
  end.

Definition check_array (X : list (list value)) : outcome (list (list Q)) :=
  if decide (length X = 0%nat) then Raise ValueError
  else mapM (mapM as_finite) X.

Section IsolationForest.
Context `{IsolationForestAlgorithm}.

(** The estimator object: its parameters, and the forest once fitted. *)
Record IsolationForest : Type := mkIsolationForest {
  contamination : Q;
  random_state : option Z;
  estimators_ : option forest
}.

(** [IsolationForest(contamination=c, random_state=s)] *)
Definition IsolationForest_new (c : Q) (s : option Z) : IsolationForest :=
  mkIsolationForest c s None.

(** The seed of a fit: the given [random_state], or without one a draw
    [ambient] of numpy's global generator. *)
Definition check_random_state (ambient : Z) (s : option Z) : Z :=
  default ambient s.

(** [model.fit(X)] *)
Definition fit (ambient : Z) (model : IsolationForest) (X : list (list value))
  : outcome IsolationForest :=
  let? X' := check_array X in
  Ok (mkIsolationForest (contamination model) (random_state model)
        (Some (grow (contamination model)
                 (check_random_state ambient (random_state model)) X'))).

(** [model.decision_function(X)] *)
Definition decision_function (model : IsolationForest) (X : list (list value))
  : outcome (list Q) :=
  match estimators_ model with
  | None => Raise NotFittedError
  | Some f => let? X' := check_array X in Ok (decision f <$> X')
  end.

(** [model.predict(X)]: -1 where the decision function is negative,
    1 elsewhere. *)
Definition predict (model : IsolationForest) (X : list (list value)) : outcome (list Q) :=
  let? scores := decision_function model X in
  Ok ((λ s : Q, if Qlt_le_dec s 0 then (- 1)%Q else 1%Q) <$> scores).

(** [model.fit_predict(X)]: the fitted model and its predictions. *)
Definition fit_predict (ambient : Z) (model : IsolationForest) (X : list (list value))
  : outcome (IsolationForest * list Q) :=
  let? model' := fit ambient model X in
  let? labels := predict model' X in
  Ok (model', labels).
End IsolationForest.

(** The min-max scaler on a matrix of one column, as [reshape(-1, 1)]
    makes it. *)
Record MinMaxScaler : Type := mkMinMaxScaler {
  feature_range : Q * Q;
  scale_ : float;
  min_ : float
}.

(** [MinMaxScaler(feature_range=(lo, hi))] *)
Definition MinMaxScaler_new (range : Q * Q) : MinMaxScaler :=
  mkMinMaxScaler range NaN NaN.

(** Input validation of the scaler: at least one sample, floats (NaN
    included). *)
Definition as_float (v : value) : outcome float :=
  match v with
  | VFloat x => Ok x
  | VStr _ => Raise ValueError
  end.

Definition check_column (X : list value) : outcome (list float) :=
  if decide (length X = 0%nat) then Raise ValueError
  else mapM as_float X.

(** The machine epsilon of the floats, [np.finfo(scale.dtype).eps]. *)
Definition eps : Q := 1 # 4503599627370496.

(** A range below ten machine epsilons is replaced by one before it
    divides: [scale[scale < 10 * eps] = 1.0]. *)
Definition _handle_zeros_in_scale (scale : float) : float :=
  match scale with
  | Finite r => if Qle_bool (10 * eps) r then Finite r else Finite 1
  | NaN => NaN
  end.

Definition scaler_fit (scaler : MinMaxScaler) (X : list float) : MinMaxScaler :=
  let data_min := nanmin X in
  let data_max := nanmax X in
  let data_range := fsub data_max data_min in
  let lo := Finite (feature_range scaler).1 in
  let hi := Finite (feature_range scaler).2 in
  let scale := fdiv (fsub hi lo) (_handle_zeros_in_scale data_range) in
  mkMinMaxScaler (feature_range scaler) scale (fsub lo (fmul data_min scale)).

Definition scaler_transform (scaler : MinMaxScaler) (X : list float) : list float :=
  (λ x, fadd (fmul x (scale_ scaler)) (min_ scaler)) <$> X.

(** [scaler.fit_transform(X)] *)
Definition fit_transform (scaler : MinMaxScaler) (X : list value) : outcome (list float) :=
  let? X' := check_column X in
  Ok (scaler_transform (scaler_fit scaler X') X').

End Sklearn.
Export Sklearn.

(** ** src/model/anomaly_detector.py *)

Module AnomalyDetector.

(** The inner function [risk_level(score)]. *)
Definition risk_level (score : value) : outcome value :=
  let? high := ge score 70 in
  if high then Ok (VStr "High")
  else
    let? medium := ge score 40 in
    if medium then Ok (VStr "Medium")
    else Ok (VStr "Low").

Section Scorer.
Context `{IsolationForestAlgorithm}.

(** [detect_anomalies(df)].  [ambient] is the state of numpy's global
    generator when the function is called. *)
Definition detect_anomalies (ambient : Z) (df : loc) : Py DataFrame loc :=
  let* df := copy df in
  let* features := getitem_list df ["Water_Usage_Liters"; "Pressure"] in
  let model := IsolationForest_new (2 # 10) (Some 42) in
  let* fitted := lift (fit_predict ambient model features) in
  let model := fitted.1 in
  do setitem df "anomaly" ((λ q, VNum q) <$> fitted.2) in
  let* scores := lift (decision_function model features) in
  do setitem df "anomaly_score" ((λ q, VNum q) <$> scores) in
  let scaler := MinMaxScaler_new (0, 100)%Q in
  let* anomaly_score := getitem df "anomaly_score" in
  let* negated := lift (series_neg anomaly_score) in
  let* scaled := lift (fit_transform scaler negated) in
  do setitem df "risk_score" (VFloat <$> scaled) in
  let* risk_score := getitem df "risk_score" in
  let* levels := lift (series_apply risk_level risk_score) in
  do setitem df "Risk_Level" levels in
  py_ret df.
End Scorer.

End AnomalyDetector.
Export AnomalyDetector.

(** ** src/utils/explanation.py *)

Module Explanation.

(** [row[key]] on one row of a frame. *)
Definition row_getitem (row : gmap string value) (key : string) : outcome value :=
  match row !! key with
  | Some v => Ok v
  | None => Raise KeyError
  end.

(** [cell == "text"]: a float never equals a text. *)
Definition eq_str (v : value) (s : string) : bool :=
  match v with
  | VStr t => bool_decide (t = s)
  | VFloat _ => false
  end.

Definition text_high : string :=
  "A sharp increase in water usage combined with reduced pressure " ++
  "was detected. This pattern strongly suggests a possible underground leak.".

Definition text_medium : string :=
  "Water usage shows moderate deviation from historical patterns. " ++
  "This zone should be monitored closely.".

Definition text_low : string :=
  "Water usage and pressure levels are within expected limits. " ++
  "No immediate action is required.".

(** [generate_explanation(row)] *)
Definition generate_explanation (row : gmap string value) : outcome string :=
  let? level := row_getitem row "Risk_Level" in
  if eq_str level "High" then Ok text_high
  else
    let? level := row_getitem row "Risk_Level" in
    if eq_str level "Medium" then Ok text_medium
    else Ok text_low.

End Explanation.
Export Explanation.

(** ** Python's [random] and [datetime] modules *)

Module Random.

(** [_randbelow(n)]: an integer of [0, n), from the generator's draw. *)
Definition randbelow (draw n : Z) : Z := draw mod n.

(** [random.randint(a, b)] is [a + _randbelow(b - a + 1)]. *)
Definition randint (draw a b : Z) : Z := a + randbelow draw (b - a + 1).

(** [random.random()]: a multiple of 2^-53 in [0, 1). *)
Definition random (draw : Z) : Q := Qmake (draw mod 2 ^ 53) (2 ^ 53).

(** [random.uniform(a, b)] is [a + (b - a) * random()], here without the
    rounding of its product and sum. *)
Definition uniform (draw : Z) (a b : Q) : Q := (a + (b - a) * random draw)%Q.

End Random.

Module Datetime.

Record datetime : Type := mkDatetime {
  year : Z; month : Z; day : Z;
  hour : Z; minute : Z; second : Z
}.

(** The ranges of the fields of a [datetime] of our era (four-digit
    years). *)
Definition valid (t : datetime) : Prop :=
  (1000 ≤ year t ≤ 9999 ∧ 1 ≤ month t ≤ 12 ∧ 1 ≤ day t ≤ 31 ∧
   0 ≤ hour t ≤ 23 ∧ 0 ≤ minute t ≤ 59 ∧ 0 ≤ second t ≤ 59)%Z.

Definition digit (n : Z) : ascii := ascii_of_nat (48 + Z.to_nat (n mod 10)).

(** The last [width] decimal digits of [n], zero-padded. *)
Fixpoint zero_pad (width : nat) (n : Z) : string :=
  match width with
  | O => EmptyString
  | S w => zero_pad w (n / 10) ++ String (digit n) EmptyString
  end.

Definition directive (t : datetime) (c : ascii) : string :=
  if decide (c = "Y"%char) then zero_pad 4 (year t)
  else if decide (c = "m"%char) then zero_pad 2 (month t)
  else if decide (c = "d"%char) then zero_pad 2 (day t)
  else if decide (c = "H"%char) then zero_pad 2 (hour t)
  else if decide (c = "M"%char) then zero_pad 2 (minute t)
  else if decide (c = "S"%char) then zero_pad 2 (second t)
  else String "%" (String c EmptyString).

(** [t.strftime(fmt)] for the directives %Y %m %d %H %M %S. *)
Fixpoint strftime (t : datetime) (fmt : string) : string :=
  match fmt with
  | EmptyString => EmptyString
  | String c rest =>
      if decide (c = "%"%char)
      then match rest with
           | EmptyString => String c EmptyString
           | String c' rest' => directive t c' ++ strftime t rest'
           end
      else String c (strftime t rest)
  end.

Definition is_digit (c : ascii) : bool :=
  bool_decide (48 ≤ nat_of_ascii c ≤ 57)%nat.

(** The layout YYYY-MM-DD HH:MM:SS: nineteen characters, digits except
    for the separators. *)
Definition layout : list (ascii → bool) :=
  let d := is_digit in
  let c (x : ascii) := λ y : ascii, bool_decide (y = x) in
  [d; d; d; d; c "-"%char; d; d; c "-"%char; d; d; c " "%char;
   d; d; c ":"%char; d; d; c ":"%char; d; d].

Fixpoint matches (pattern : list (ascii → bool)) (s : string) : bool :=
  match pattern, s with
  | [], EmptyString => true
  | p :: pattern', String c s' => p c && matches pattern' s'
  | _, _ => false
  end.

End Datetime.
Export Datetime.

(** ** src/utils/live_data.py *)

Module LiveData.

(** What the function takes from its surroundings: one draw of numpy's
    global generator (the sampled row), two draws of Python's global
    generator (the two offsets), and the wall clock. *)
Record World : Type := mkWorld {
  numpy_draw : Z;
  randint_draw : Z;
  uniform_draw : Z;
  now : datetime
}.

(** [generate_live_data(df)] *)
Definition generate_live_data (w : World) (df : loc) : Py DataFrame loc :=
  let* df := copy df in
  let* idx := sample_label (numpy_draw w) df in
  do loc_iadd df idx "Water_Usage_Liters"
       (inject_Z (Random.randint (randint_draw w) (-50) 200)) in
  do loc_iadd df idx "Pressure"
       (Random.uniform (uniform_draw w) (- (3 # 10)) (2 # 10)) in
  do loc_set df idx "Date" (VStr (strftime (now w) "%Y-%m-%d %H:%M:%S")) in
  py_ret df.

End LiveData.
Export LiveData.

(** ** Notions used to state the properties *)

Module Batch.

(** The two feature columns, in the order the scorer reads them. *)
Definition feature_columns : list string := ["Water_Usage_Liters"; "Pressure"].

(** The four columns the scorer writes. *)
Definition score_columns : list string :=
  ["anomaly"; "anomaly_score"; "risk_score"; "Risk_Level"].

(** The three columns the injector writes. *)
Definition live_columns : list string := ["Water_Usage_Liters"; "Pressure"; "Date"].

Definition is_finite (v : value) : Prop :=
  match v with VNum _ => True | _ => False end.

#[global] Instance is_finite_dec v : Decision (is_finite v).
Proof. destruct v as [[q|]|s]; cbn; apply _. Defined.

(** Column [c] exists and holds finite numbers only. *)
Definition numeric_column (d : DataFrame) (c : string) : Prop :=
  match df_columns d !! c with
  | Some col => Forall is_finite col
  | None => False
  end.

#[global] Instance numeric_column_dec d c : Decision (numeric_column d c).
Proof. unfold numeric_column. destruct (df_columns d !! c); apply _. Defined.

(** A table of readings: one cell per row in every column, and finite
    numbers in the usage and pressure columns. *)
Definition readings (d : DataFrame) : Prop :=
  well_formed d ∧ Forall (numeric_column d) feature_columns.

#[global] Instance readings_dec d : Decision (readings d).
Proof. unfold readings. apply _. Defined.

(** The number in a cell (0 for a cell that holds none). *)
Definition number_of (v : value) : Q :=
  match v with VNum q => q | _ => 0%Q end.

(** The rows of the feature columns, as the scorer hands them to the
    forest. *)
Definition feature_rows (d : DataFrame) : outcome (list (list value)) :=
  let? cols := select_columns d feature_columns in
  Ok (row_of cols <$> seq 0 (nrows d)).

(** The validated feature matrix of a frame (empty when there is none). *)
Definition feature_matrix (d : DataFrame) : list (list Q) :=
  match (let? rows := feature_rows d in check_array rows) with
  | Ok X => X
  | Raise _ => []
  end.

Section Scores.
Context `{IsolationForestAlgorithm}.

(** The raw anomaly measure of every row of a feature matrix: the
    decision function of the forest grown on that matrix with
    contamination 0.2 and seed 42. *)
Definition raw_measures (X : list (list Q)) : list Q :=
  decision (grow (2 # 10) 42 X) <$> X.

Definition anomaly_labels (X : list (list Q)) : list Q :=
  (λ s : Q, if Qlt_le_dec s 0 then (- 1)%Q else 1%Q) <$> raw_measures X.

(** The negated measures, rescaled by a scaler fitted on them. *)
Definition risk_scores (X : list (list Q)) : list float :=
  let negated := (λ s : Q, Finite (- s)) <$> raw_measures X in
  scaler_transform (scaler_fit (MinMaxScaler_new (0, 100)%Q) negated) negated.

Definition tier (x : float) : string :=
  if fge x 70 then "High" else if fge x 40 then "Medium" else "Low".

(** The frame the scorer builds from frame [d] with feature matrix [X]. *)
Definition scored_frame (d : DataFrame) (X : list (list Q)) : DataFrame :=
  mkDataFrame (df_index d)
    (<["Risk_Level" := (λ x, VStr (tier x)) <$> risk_scores X]>
       (<["risk_score" := VFloat <$> risk_scores X]>
          (<["anomaly_score" := (λ q, VNum q) <$> raw_measures X]>
             (<["anomaly" := (λ q, VNum q) <$> anomaly_labels X]>
                (df_columns d))))).
End Scores.

End Batch.
Export Batch.

(** ** The rescaling, in closed form *)

Module Rescale.

(** The range the scaler divides by, for a batch whose smallest and
    largest values are [lo] and [hi]. *)
Definition divisor (lo hi : Q) : Q :=
  if Qle_bool (10 * eps) (hi - lo) then (hi - lo)%Q else 1%Q.

(** The image of [x] under a scaler to [0, 100] fitted on a batch whose
    smallest and largest values are [lo] and [hi]: [x * scale_ + min_]. *)
Definition rescaled (lo hi x : Q) : Q :=
  (x * ((100 - 0) / divisor lo hi) + (0 - lo * ((100 - 0) / divisor lo hi)))%Q.

(** The smallest and the largest negated measure of the batch [a :: l]. *)
Definition lowest (a : Q) (l : list Q) : Q := foldr Qmin (- a)%Q (Qopp <$> l).
Definition highest (a : Q) (l : list Q) : Q := foldr Qmax (- a)%Q (Qopp <$> l).

End Rescale.
Export Rescale.

(** ** The rescaling, on binary64 numbers *)

(** Lines 17 to 20 of [detect_anomalies] with the arithmetic of the
    machine: the negation of the decision values, the fit of the scaler
    and its transform, each operation rounded to binary64 as numpy does. *)
Module Binary64.
Import PrimFloat.
Local Open Scope float_scope.

(** [np.finfo(np.float64).eps] *)
Definition eps : float := 0x1p-52.

Definition minimum (x y : float) : float := if y <? x then y else x.
Definition maximum (x y : float) : float := if x <? y then y else x.

(** The entries of an array that are not NaN, in order. *)
Definition finite_entries (X : list float) : list float :=
  List.filter (λ x, x =? x) X.

(** [np.nanmin] and [np.nanmax] *)
Definition nanmin (X : list float) : float :=
  match finite_entries X with
  | [] => nan
  | a :: l => foldr minimum a l
  end.

Definition nanmax (X : list float) : float :=
  match finite_entries X with
  | [] => nan
  | a :: l => foldr maximum a l
  end.

(** [scale[scale < 10 * eps] = 1.0] *)
Definition _handle_zeros_in_scale (scale : float) : float :=
  if scale <? 10 * eps then 1 else scale.

(** [MinMaxScaler(feature_range=range).fit_transform(X)] on one column:
    [scale_] and [min_] as [partial_fit] computes them, then
    [X *= scale_; X += min_]. *)
Definition fit_transform (range : float * float) (X : list float) : list float :=
  let data_min := nanmin X in
  let data_max := nanmax X in
  let data_range := data_max - data_min in
  let scale_ := (range.2 - range.1) / _handle_zeros_in_scale data_range in
  let min_ := range.1 - data_min * scale_ in
  (λ x, x * scale_ + min_) <$> X.

(** The column [risk_score] for a column [anomaly_score]. *)
Definition risk_scores (anomaly_score : list float) : list float :=
  fit_transform (0, 100) (opp <$> anomaly_score).

End Binary64.

(** ** The injected frame, in closed form *)

Module Injection.

(** [cell + k] where it is defined: a text is left alone. *)
Definition shifted (k : Q) (v : value) : value :=
  match v with
  | VFloat x => VFloat (fadd x (Finite k))
  | VStr s => VStr s
  end.

(** The three values the injector draws or reads. *)
Definition usage_offset (w : World) : Z := Random.randint (randint_draw w) (-50) 200.
Definition pressure_offset (w : World) : Q :=
  Random.uniform (uniform_draw w) (- (3 # 10)) (2 # 10).
Definition timestamp (w : World) : string := strftime (now w) "%Y-%m-%d %H:%M:%S".

(** The position the sampling picks in a frame of [n] rows. *)
Definition sampled_position (w : World) (n : nat) : nat :=
  Z.to_nat (numpy_draw w mod Z.of_nat n).

(** The frame the injector builds from a table of readings [d] when it
    samples the label [idx]. *)
Definition injected_frame (w : World) (d : DataFrame) (idx : Z) : DataFrame :=
  let usage := default [] (df_columns d !! "Water_Usage_Liters") in
  let pressure := default [] (df_columns d !! "Pressure") in
  let date := default (replicate (nrows d) VNaN) (df_columns d !! "Date") in
  mkDataFrame (df_index d)
    (<["Date" := at_label idx (df_index d) (λ _, VStr (timestamp w)) date]>
       (<["Pressure" := at_label idx (df_index d) (shifted (pressure_offset w)) pressure]>
          (<["Water_Usage_Liters" :=
               at_label idx (df_index d) (shifted (inject_Z (usage_offset w))) usage]>
             (df_columns d)))).

End Injection.
Export Injection.

(** ** Worked examples *)

Module Examples.

(** A stand-in for the library's forest, to run the scorer on concrete
    tables: it keeps no state, and scores a row by the negated sum of its
    features (a larger sum is more abnormal). *)
#[export] Instance sum_forest : IsolationForestAlgorithm := {
  forest := unit;
  grow _ _ _ := tt;
  decision _ x := (- foldr Qplus 0 x)%Q
}.

Definition frame (index : list Z) (columns : list (string * list value)) : DataFrame :=
  mkDataFrame index (list_to_map columns).

(** Zones A, B and C of the end-to-end scenario. *)
Definition three_zones : DataFrame :=
  frame [0; 1; 2]
    [("Zone_ID", [VStr "A"; VStr "B"; VStr "C"]);
     ("Date", [VStr "2024-01-01"; VStr "2024-01-01"; VStr "2024-01-01"]);
     ("Water_Usage_Liters", [VNum 100; VNum 105; VNum 900]);
     ("Pressure", [VNum 5; VNum (51 # 10); VNum (5 # 10)])].

(** Three rows with the same usage and pressure. *)
Definition flat_batch : DataFrame :=
  frame [0; 1; 2]
    [("Zone_ID", [VStr "A"; VStr "B"; VStr "C"]);
     ("Date", [VStr "2024-01-01"; VStr "2024-01-02"; VStr "2024-01-03"]);
     ("Water_Usage_Liters", [VNum 100; VNum 100; VNum 100]);
     ("Pressure", [VNum 5; VNum 5; VNum 5])].

(** A table without the pressure column. *)
Definition no_pressure : DataFrame :=
  frame [0; 1]
    [("Zone_ID", [VStr "A"; VStr "B"]);
     ("Water_Usage_Liters", [VNum 100; VNum 105])].

(** A table with the two feature columns and no row. *)
Definition no_rows : DataFrame :=
  frame [] [("Water_Usage_Liters", []); ("Pressure", [])].

(** A table with no row and no column. *)
Definition nothing : DataFrame := frame [] [].


(** A table of readings without dates. *)
Definition undated : DataFrame :=
  frame [0; 1; 2]
    [("Zone_ID", [VStr "Z1"; VStr "Z2"; VStr "Z9"]);
     ("Water_Usage_Liters", [VNum 100; VNum 105; VNum 900]);
     ("Pressure", [VNum 5; VNum (51 # 10); VNum (5 # 10)])].

(** Draws that pick row 0, the offsets 10 and -0.05, and a clock that
    reads 2024-05-06 07:08:09. *)
Definition a_world : World :=
  mkWorld 0 60 (2 ^ 52) (mkDatetime 2024 5 6 7 8 9).

(** The caller's heap: one frame, at reference 1. *)
Definition heap_of (d : DataFrame) : gmap loc DataFrame := {[1%positive := d]}.

End Examples.
Export Examples.

(** ** src/app.py: loading the data *)

Module App.

(** The two calls that turn the table read from the file into the table
    the dashboard shows: [df = generate_live_data(df)] and then
    [processed_df = detect_anomalies(df)]. *)
Definition load_data `{IsolationForestAlgorithm} (w : World) (ambient : Z) (df : loc)
  : Py DataFrame loc :=
  let* df := generate_live_data w df in
  let* processed_df := detect_anomalies ambient df in
  py_ret processed_df.

(** The dashboard only reads the scored table; what it computes from it
    is given on the frame the reference [processed_df] designates. *)

(** [df[c]] on a frame. *)
Definition column (d : DataFrame) (c : string) : outcome (list value) :=
  match df_columns d !! c with
  | Some col => Ok col
  | None => Raise KeyError
  end.

(** [series == "text"], cell by cell. *)
Definition series_eq (s : list value) (t : string) : list bool :=
  (λ v, eq_str v t) <$> s.

(** [mask.sum()]: the number of true cells. *)
Definition count_true (mask : list bool) : nat :=
  length (filter (λ b : bool, b = true) mask).

(** The KPI counts: [(processed_df["Risk_Level"] == level).sum()] for
    High, Medium and Low. *)
Definition kpi_counts (d : DataFrame) : outcome (nat * nat * nat) :=
  let? c1 := column d "Risk_Level" in
  let high := count_true (series_eq c1 "High") in
  let? c2 := column d "Risk_Level" in
  let medium := count_true (series_eq c2 "Medium") in
  let? c3 := column d "Risk_Level" in
  let low := count_true (series_eq c3 "Low") in
  Ok (high, medium, low).




(** The rows of a frame, in order, as [iterrows] yields them. *)
Definition iterrows (d : DataFrame) : list (gmap string value) :=
  (λ i, row d i) <$> seq 0 (nrows d).


(** [l[mask]]: the entries of [l] where the mask is true. *)
Fixpoint mask_filter {A} (mask : list bool) (l : list A) : list A :=
  match mask, l with
  | b :: mask', a :: l' =>
      if b then a :: mask_filter mask' l' else mask_filter mask' l'
  | _, _ => []
  end.

(** [df[mask]]: the rows of the frame where the mask is true. *)
Definition getitem_mask (d : DataFrame) (mask : list bool) : DataFrame :=
  mkDataFrame (mask_filter mask (df_index d)) (mask_filter mask <$> df_columns d).

(** [df.head(n)]: the first [n] rows. *)
Definition head (n : nat) (d : DataFrame) : DataFrame :=
  mkDataFrame (take n (df_index d)) (take n <$> df_columns d).

(** The critical alerts of the insight panel: for each of the first two
    rows of level High, the zone and the explanation. *)
Definition critical_alerts (d : DataFrame) : outcome (list (value * string)) :=
  let? levels := column d "Risk_Level" in
  let shown := head 2 (getitem_mask d (series_eq levels "High")) in
  mapM (λ row, let? zone := row_getitem row "Zone_ID" in
               let? text := generate_explanation row in
               Ok (zone, text))
       (iterrows shown).


End App.
Export App.

(** * Properties *)

(** ** Outcomes and heap computations *)

Section MapM.
Context {A B : Type}.

Lemma mapM_total (f : A → outcome B) (g : A → B) (l : list A) :
  (∀ a, a ∈ l → f a = Ok (g a)) → mapM f l = Ok (g <$> l).
Proof.
  induction l as [|a l IH]; intros Hf; [done|].
  cbn. rewrite Hf by left. cbn.
  rewrite IH; [done|]. intros b Hb. apply Hf. by right.
Qed.

Lemma mapM_Ok_length (f : A → outcome B) (l : list A) (l' : list B) :
  mapM f l = Ok l' → length l' = length l.
Proof.
  revert l'. induction l as [|a l IH]; intros l'; cbn.
  - by intros [= <-].
  - destruct (f a) as [b|e]; cbn; [|done].
    destruct (mapM f l) as [bs|e]; cbn; [|done].
    intros [= <-]. cbn. f_equal. by apply IH.
Qed.

Lemma mapM_Ok_lookup (f : A → outcome B) (l : list A) (l' : list B) i a :
  mapM f l = Ok l' → l !! i = Some a → ∃ b, l' !! i = Some b ∧ f a = Ok b.
Proof.
  revert l' i. induction l as [|x l IH]; intros l' i; cbn; [done|].
  destruct (f x) as [b|e] eqn:Hx; cbn; [|done].
  destruct (mapM f l) as [bs|e]; cbn; [|done].
  intros [= <-]. destruct i as [|i]; cbn.
  - intros [= ->]. eauto.
  - intros Hi. by apply IH.
Qed.
End MapM.

Section Run.
Context {O : Type}.
Implicit Types (h : gmap loc O) (r : loc).

Lemma run_bind {A B} (m : Py O A) (f : A → Py O B) h :
  run (py_bind m f) h =
    match run m h with
    | (Ok a, h') => run (f a) h'
    | (Raise e, h') => (Raise e, h')
    end.
Proof. done. Qed.

Lemma run_lift {A} (o : outcome A) h : run (lift (O := O) o) h = (o, h).
Proof. done. Qed.

Lemma run_deref h r o : h !! r = Some o → run (deref r) h = (Ok o, h).
Proof. intros Hr. cbn. by rewrite Hr. Qed.

(** A computation that writes no object other than [r]. *)
Definition writes_only {A} (r : loc) (m : Py O A) : Prop :=
  ∀ h l, l ≠ r → (run m h).2 !! l = h !! l.

Lemma writes_only_ret {A} r (a : A) : writes_only r (py_ret a).
Proof. done. Qed.

Lemma writes_only_raise {A} r e : writes_only r (raise (A := A) e).
Proof. done. Qed.

Lemma writes_only_lift {A} r (o : outcome A) : writes_only r (lift o).
Proof. done. Qed.

Lemma writes_only_deref r r' : writes_only r (deref r').
Proof. intros h l _. cbn. by destruct (h !! r'). Qed.

Lemma writes_only_assign r o : writes_only r (assign r o).
Proof. intros h l Hl. cbn. by rewrite lookup_insert_ne. Qed.

Lemma writes_only_bind {A B} r (m : Py O A) (f : A → Py O B) :
  writes_only r m → (∀ a, writes_only r (f a)) → writes_only r (py_bind m f).
Proof.
  intros Hm Hf h l Hl. rewrite run_bind.
  specialize (Hm h l Hl). destruct (run m h) as [[a|e] h']; cbn in *.
  - by rewrite Hf.
  - done.
Qed.
End Run.

Create HintDb frame.

#[local] Hint Resolve writes_only_ret writes_only_raise writes_only_lift
  writes_only_deref writes_only_assign : frame.

(** ** Data frames *)

Section Frames.
Implicit Types (h : gmap loc DataFrame) (d : DataFrame) (r : loc).

Lemma run_copy h r d :
  h !! r = Some d →
  run (copy r) h = (Ok (fresh (dom h)), <[fresh (dom h) := d]> h).
Proof. intros Hr. unfold copy. rewrite run_bind, (run_deref _ _ _ Hr). done. Qed.

Lemma fresh_not_allocated h r d : h !! r = Some d → r ≠ fresh (dom h).
Proof.
  intros Hr ->. apply (is_fresh (dom h)). apply elem_of_dom. eauto.
Qed.

Lemma run_getitem h r d c :
  h !! r = Some d →
  run (getitem r c) h =
    (match df_columns d !! c with Some col => Ok col | None => Raise KeyError end, h).
Proof.
  intros Hr. unfold getitem. rewrite run_bind, (run_deref _ _ _ Hr).
  by destruct (df_columns d !! c).
Qed.

Lemma run_getitem_list h r d cs :
  h !! r = Some d →
  run (getitem_list r cs) h =
    (match select_columns d cs with
     | Ok cols => Ok (row_of cols <$> seq 0 (nrows d))
     | Raise e => Raise e
     end, h).
Proof.
  intros Hr. unfold getitem_list. rewrite run_bind, (run_deref _ _ _ Hr).
  rewrite run_bind, run_lift. by destruct (select_columns d cs).
Qed.

Lemma run_setitem h r d c vals :
  h !! r = Some d → length vals = nrows d →
  run (setitem r c vals) h =
    (Ok tt, <[r := mkDataFrame (df_index d) (<[c := vals]> (df_columns d))]> h).
Proof.
  intros Hr Hlen. unfold setitem. rewrite run_bind, (run_deref _ _ _ Hr).
  by rewrite decide_True.
Qed.

Lemma run_setitem_at h r d c vals :
  length vals = nrows d →
  run (setitem r c vals) (<[r := d]> h) =
    (Ok tt, <[r := mkDataFrame (df_index d) (<[c := vals]> (df_columns d))]> h).
Proof.
  intros Hlen. rewrite (run_setitem _ r d) by (by rewrite ?lookup_insert_eq).
  by rewrite insert_insert_eq.
Qed.

Lemma run_getitem_at h r d c col :
  df_columns d !! c = Some col →
  run (getitem r c) (<[r := d]> h) = (Ok col, <[r := d]> h).
Proof.
  intros Hc. rewrite (run_getitem _ r d) by (by rewrite lookup_insert_eq).
  by rewrite Hc.
Qed.

Lemma writes_only_setitem r c vals : writes_only r (setitem r c vals).
Proof.
  apply writes_only_bind; [auto with frame|]. intros d.
  case_decide; auto with frame.
Qed.

Lemma writes_only_getitem r c : writes_only r (getitem r c).
Proof.
  apply writes_only_bind; [auto with frame|]. intros d.
  destruct (df_columns d !! c); auto with frame.
Qed.

Lemma writes_only_getitem_list r cs : writes_only r (getitem_list r cs).
Proof.
  apply writes_only_bind; [auto with frame|]. intros d.
  apply writes_only_bind; auto with frame.
Qed.
End Frames.

#[local] Hint Resolve writes_only_setitem writes_only_getitem
  writes_only_getitem_list : frame.

(** ** The scorer, run on a heap *)

Section ScorerRun.
Context `{IsolationForestAlgorithm}.
Implicit Types (h : gmap loc DataFrame) (d : DataFrame) (r : loc).

Lemma risk_level_float x : risk_level (VFloat x) = Ok (VStr (tier x)).
Proof. unfold risk_level, tier. cbn. by destruct (fge x 70), (fge x 40). Qed.

Lemma check_array_length X X' : check_array X = Ok X' → length X' = length X ∧ length X ≠ 0%nat.
Proof.
  unfold check_array. case_decide; [done|]. intros HX. split; [|done].
  by apply mapM_Ok_length in HX.
Qed.

Lemma feature_rows_length d rows : feature_rows d = Ok rows → length rows = nrows d.
Proof.
  unfold feature_rows. destruct (select_columns d feature_columns); cbn; [|done].
  intros [= <-]. by rewrite length_fmap, length_seq.
Qed.

(** The scorer has three outcomes: a missing feature column, a feature
    matrix the forest rejects, or the scored copy. *)
Lemma detect_anomalies_run ambient h r d :
  h !! r = Some d →
  run (detect_anomalies ambient r) h =
    let r' := fresh (dom h) in
    match feature_rows d with
    | Raise e => (Raise e, <[r' := d]> h)
    | Ok rows =>
        match check_array rows with
        | Raise e => (Raise e, <[r' := d]> h)
        | Ok X => (Ok r', <[r' := scored_frame d X]> h)
        end
    end.
Proof.
  intros Hr. cbv zeta. unfold detect_anomalies.
  rewrite run_bind, (run_copy _ _ _ Hr).
  set (r' := fresh (dom h)).
  rewrite run_bind, (run_getitem_list _ r' d) by apply lookup_insert_eq.
  unfold feature_rows, feature_columns.
  destruct (select_columns d _) as [cols|e]; cbn [outcome_bind]; [|done].
  set (rows := row_of cols <$> seq 0 (nrows d)).
  assert (length rows = nrows d) as Hrows by (unfold rows; by rewrite length_fmap, length_seq).
  rewrite run_bind, run_lift.
  unfold fit_predict, fit.
  destruct (check_array rows) as [X|e] eqn:HX; cbn [outcome_bind]; [|done].
  apply check_array_length in HX as HlenX. destruct HlenX as [HlenX Hne].
  unfold predict, decision_function. cbn [estimators_ contamination random_state].
  rewrite HX. cbn [outcome_bind fst snd].
  cbn [IsolationForest_new contamination random_state estimators_
       check_random_state default from_option id].
  change (decision (grow (2 # 10) 42 X) <$> X) with (raw_measures X).
  change ((λ s : Q, if Qlt_le_dec s 0 then (- 1)%Q else 1%Q) <$> raw_measures X)
    with (anomaly_labels X).
  assert (length (raw_measures X) = nrows d) as Hraw
    by (unfold raw_measures; rewrite length_fmap; congruence).
  rewrite run_bind, run_setitem_at
    by (unfold anomaly_labels; by rewrite !length_fmap).
  rewrite run_bind, run_lift.
  rewrite run_bind, run_setitem_at by (by rewrite length_fmap).
  rewrite run_bind, (run_getitem_at _ _ _ _ _ (lookup_insert_eq _ _ _)).
  rewrite run_bind, run_lift.
  unfold series_neg.
  rewrite (mapM_total neg (λ v, match v with VFloat x => VFloat (fneg x) | _ => v end))
    by (intros v [q [-> _]]%list_elem_of_fmap; done).
  rewrite <- list_fmap_compose.
  rewrite run_bind, run_lift. unfold fit_transform, check_column.
  rewrite decide_False by (rewrite length_fmap; congruence).
  rewrite (mapM_total as_float (λ v, match v with VFloat x => x | _ => NaN end))
    by (intros v [q [-> _]]%list_elem_of_fmap; done).
  rewrite <- list_fmap_compose. cbn [outcome_bind].
  change (scaler_transform _ _) with (risk_scores X).
  assert (length (risk_scores X) = nrows d) as Hrisk
    by (unfold risk_scores, scaler_transform; by rewrite !length_fmap).
  rewrite run_bind, run_setitem_at by (by rewrite length_fmap).
  rewrite run_bind, (run_getitem_at _ _ _ _ _ (lookup_insert_eq _ _ _)).
  rewrite run_bind, run_lift. unfold series_apply.
  rewrite (mapM_total risk_level
             (λ v, match v with VFloat x => VStr (tier x) | _ => v end))
    by (intros v [x [-> _]]%list_elem_of_fmap; apply risk_level_float).
  rewrite <- list_fmap_compose.
  rewrite run_bind, run_setitem_at by (by rewrite length_fmap).
  done.
Qed.
End ScorerRun.

(** ** Tier classification *)

Lemma Qle_bool_false (x y : Q) : Qle_bool x y = false ↔ (y < x)%Q.
Proof.
  split.
  - intros Hb. apply Qnot_le_lt. intros Hle. apply Qle_bool_iff in Hle. congruence.
  - intros Hlt. destruct (Qle_bool x y) eqn:Hb; [|done].
    apply Qle_bool_iff in Hb. by apply Qlt_not_le in Hlt.
Qed.

(** C1: the tier of a score is High from 70 up, Medium from 40 up to but
    not including 70, and Low below 40; the four boundary scores fall as
    the specification lists them, and every score gets one of the three
    tiers. *)
Theorem risk_level_tiers (score : Q) :
  (risk_level (VNum score) = Ok (VStr "High") ↔ (70 <= score)%Q) ∧
  (risk_level (VNum score) = Ok (VStr "Medium") ↔ (40 <= score)%Q ∧ (score < 70)%Q) ∧
  (risk_level (VNum score) = Ok (VStr "Low") ↔ (score < 40)%Q) ∧
  (∃ t, risk_level (VNum score) = Ok (VStr t) ∧ t ∈ ["Low"; "Medium"; "High"]) ∧
  risk_level (VNum 70) = Ok (VStr "High") ∧
  risk_level (VNum (69999 # 1000)) = Ok (VStr "Medium") ∧
  risk_level (VNum 40) = Ok (VStr "Medium") ∧
  risk_level (VNum (39999 # 1000)) = Ok (VStr "Low").
Proof.
  unfold risk_level, ge, fge. cbn [outcome_bind].
  destruct (Qle_bool 70 score) eqn:H70; [|destruct (Qle_bool 40 score) eqn:H40];
    rewrite ?Qle_bool_iff, ?Qle_bool_false in *;
    (split_and!; [split; [try done; intros; lra | try done; intros; lra].. |
                  eexists; split; [done|set_solver] | done | done | done | done]).
Qed.

(** ** The scorer and its caller's table *)

Section ScorerFrame.
Context `{IsolationForestAlgorithm}.
Implicit Types (h : gmap loc DataFrame) (d : DataFrame) (r : loc).

(** Whatever the outcome, the heap after the scorer is the heap before
    it plus one new frame. *)
Lemma detect_anomalies_heap ambient h r d :
  h !! r = Some d →
  ∃ d', (run (detect_anomalies ambient r) h).2 = <[fresh (dom h) := d']> h.
Proof.
  intros Hr. rewrite (detect_anomalies_run _ _ _ _ Hr). cbv zeta.
  destruct (feature_rows d) as [rows|e]; [|by eexists].
  destruct (check_array rows) as [X|e]; by eexists.
Qed.

Lemma detect_anomalies_returns ambient h r d r' :
  h !! r = Some d →
  (run (detect_anomalies ambient r) h).1 = Ok r' → r' = fresh (dom h).
Proof.
  intros Hr. rewrite (detect_anomalies_run _ _ _ _ Hr). cbv zeta.
  destruct (feature_rows d) as [rows|e]; [|done].
  destruct (check_array rows) as [X|e]; [|done].
  by intros [= <-].
Qed.
End ScorerFrame.

(** C10: the scorer leaves its caller's table, and every other frame the
    caller has, as they were; the table it returns is a new frame, not the
    caller's. *)
Theorem detect_anomalies_keeps_input `{IsolationForestAlgorithm}
    (ambient : Z) (h : gmap loc DataFrame) (r : loc) (d : DataFrame) :
  h !! r = Some d →
  (run (detect_anomalies ambient r) h).2 !! r = Some d ∧
  (∀ l o, h !! l = Some o → (run (detect_anomalies ambient r) h).2 !! l = Some o) ∧
  (∀ r', (run (detect_anomalies ambient r) h).1 = Ok r' →
         r' ≠ r ∧ h !! r' = None ∧ is_Some ((run (detect_anomalies ambient r) h).2 !! r')).
Proof.
  intros Hr.
  destruct (detect_anomalies_heap ambient h r d Hr) as [d' Hheap].
  assert (∀ l o, h !! l = Some o → l ≠ fresh (dom h)) as Hfresh
    by (intros l o Hl; by eapply fresh_not_allocated).
  split_and!.
  - rewrite Hheap, lookup_insert_ne; [done|]. apply not_eq_sym. by eapply Hfresh.
  - intros l o Hl. rewrite Hheap, lookup_insert_ne; [done|].
    apply not_eq_sym. by eapply Hfresh.
  - intros r' Hret. apply (detect_anomalies_returns _ _ _ _ _ Hr) in Hret as ->.
    split_and!.
    + apply not_eq_sym. by eapply Hfresh.
    + apply not_elem_of_dom, is_fresh.
    + rewrite Hheap, lookup_insert_eq. by eexists.
Qed.

Lemma detect_anomalies_keeps_input_witness :
  heap_of three_zones !! 1%positive = Some three_zones ∧
  (run (detect_anomalies 0 1%positive) (heap_of three_zones)).2 !! 1%positive
    = Some three_zones ∧
  (∀ l o, heap_of three_zones !! l = Some o →
          (run (detect_anomalies 0 1%positive) (heap_of three_zones)).2 !! l = Some o) ∧
  (∀ r', (run (detect_anomalies 0 1%positive) (heap_of three_zones)).1 = Ok r' →
         r' ≠ 1%positive ∧ heap_of three_zones !! r' = None ∧
         is_Some ((run (detect_anomalies 0 1%positive) (heap_of three_zones)).2 !! r')).
Proof.
  split; [reflexivity|].
  apply (detect_anomalies_keeps_input 0 (heap_of three_zones) 1%positive three_zones).
  reflexivity.
Defined.

(** ** Feature extraction *)

Section Features.
Implicit Types (d : DataFrame).

Lemma feature_columns_cases (P : string → Prop) :
  (∀ c, c ∈ feature_columns → P c) ↔ P "Water_Usage_Liters" ∧ P "Pressure".
Proof.
  unfold feature_columns. split.
  - intros HP. split; apply HP; set_solver.
  - intros [Hu Hp] c Hc. set_unfold. by destruct Hc as [->|[->|[]]].
Qed.

Lemma feature_rows_present d usage pressure :
  df_columns d !! "Water_Usage_Liters" = Some usage →
  df_columns d !! "Pressure" = Some pressure →
  feature_rows d = Ok (row_of [usage; pressure] <$> seq 0 (nrows d)).
Proof.
  intros Hu Hp. unfold feature_rows, select_columns, feature_columns. cbn.
  by rewrite Hu, Hp.
Qed.

Lemma feature_rows_missing d :
  (∃ c, c ∈ feature_columns ∧ df_columns d !! c = None) →
  feature_rows d = Raise KeyError.
Proof.
  intros (c & Hc & Hnone). unfold feature_rows, select_columns, feature_columns in *. cbn.
  set_unfold. destruct Hc as [->|[->|[]]]; rewrite Hnone; cbn; [done|].
  by destruct (df_columns d !! "Water_Usage_Liters").
Qed.

(** On a non-empty table of readings the forest accepts the features. *)
Lemma readings_features d :
  readings d → nrows d ≠ 0%nat →
  ∃ rows, feature_rows d = Ok rows ∧
          check_array rows = Ok ((λ row : list value, number_of <$> row) <$> rows).
Proof.
  intros [Hwf Hcols] Hn.
  rewrite Forall_forall in Hcols.
  apply feature_columns_cases in Hcols as [Hu Hp]. unfold numeric_column in Hu, Hp.
  destruct (df_columns d !! "Water_Usage_Liters") as [usage|] eqn:Hu'; [|done].
  destruct (df_columns d !! "Pressure") as [pressure|] eqn:Hp'; [|done].
  rename Hu into Hfu, Hp into Hfp, Hu' into Hu, Hp' into Hp.
  exists (row_of [usage; pressure] <$> seq 0 (nrows d)).
  split; [by apply feature_rows_present|].
  unfold check_array. rewrite decide_False by (by rewrite length_fmap, length_seq).
  apply mapM_total. intros row [i [-> Hi]]%list_elem_of_fmap.
  apply elem_of_seq in Hi as [_ Hi]. cbn in Hi.
  apply mapM_total. intros v Hv. unfold row_of in Hv. cbn in Hv.
  assert (is_finite v) as Hfin; [|by destruct v as [[q|]|]].
  set_unfold. destruct Hv as [->|[->|[]]].
  - destruct (lookup_lt_is_Some_2 usage i) as [v Hv]; [by rewrite (Hwf _ _ Hu)|].
    rewrite Hv. cbn. exact (Forall_lookup_1 _ _ _ _ Hfu Hv).
  - destruct (lookup_lt_is_Some_2 pressure i) as [v Hv]; [by rewrite (Hwf _ _ Hp)|].
    rewrite Hv. cbn. exact (Forall_lookup_1 _ _ _ _ Hfp Hv).
Qed.

Lemma readings_feature_matrix d :
  readings d → nrows d ≠ 0%nat →
  ∃ rows, feature_rows d = Ok rows ∧ check_array rows = Ok (feature_matrix d) ∧
          length (feature_matrix d) = nrows d.
Proof.
  intros Hd Hn. destruct (readings_features d Hd Hn) as (rows & Hrows & HX).
  exists rows. unfold feature_matrix. rewrite Hrows. cbn [outcome_bind]. rewrite HX.
  split_and!; [done..|]. rewrite length_fmap. by apply feature_rows_length.
Qed.
End Features.

(** ** What the scorer returns *)

Section ScorerResult.
Context `{IsolationForestAlgorithm}.
Implicit Types (h : gmap loc DataFrame) (d : DataFrame) (r : loc).

Lemma detect_anomalies_readings ambient h r d :
  h !! r = Some d → readings d → nrows d ≠ 0%nat →
  run (detect_anomalies ambient r) h =
    (Ok (fresh (dom h)), <[fresh (dom h) := scored_frame d (feature_matrix d)]> h).
Proof.
  intros Hr Hd Hn. rewrite (detect_anomalies_run _ _ _ _ Hr). cbv zeta.
  destruct (readings_feature_matrix d Hd Hn) as (rows & -> & -> & _). done.
Qed.

Lemma scored_frame_other d X c :
  c ∉ score_columns → df_columns (scored_frame d X) !! c = df_columns d !! c.
Proof.
  unfold score_columns. intros Hc. set_unfold. cbn.
  rewrite !lookup_insert_ne by naive_solver. done.
Qed.

Lemma scored_frame_score d X c :
  c ∈ score_columns → length X = nrows d →
  ∃ col, df_columns (scored_frame d X) !! c = Some col ∧ length col = nrows d.
Proof.
  unfold score_columns. intros Hc HX. set_unfold. cbn.
  assert (length (raw_measures X) = nrows d) as Hraw
    by (unfold raw_measures; by rewrite length_fmap).
  assert (length (risk_scores X) = nrows d) as Hrisk
    by (unfold risk_scores, scaler_transform; by rewrite !length_fmap).
  destruct Hc as [->|[->|[->|[->|[]]]]]; eexists; (split; [by simplify_map_eq|]);
    unfold anomaly_labels; by rewrite ?length_fmap.
Qed.

Lemma scored_frame_well_formed d X :
  well_formed d → length X = nrows d → well_formed (scored_frame d X).
Proof.
  intros Hwf HX c col Hc.
  destruct (decide (c ∈ score_columns)) as [Hin|Hout].
  - destruct (scored_frame_score d X c Hin HX) as (col' & Hc' & Hlen).
    rewrite Hc in Hc'. injection Hc' as <-. exact Hlen.
  - rewrite scored_frame_other in Hc by done. by apply Hwf in Hc.
Qed.
End ScorerResult.

Lemma row_lookup (d : DataFrame) (i : nat) (c : string) :
  row d i !! c = df_columns d !! c ≫= (λ col : list value, col !! i).
Proof. unfold row. by rewrite lookup_omap. Qed.

(** C4: on a non-empty table of readings the scorer returns a table with
    the same rows in the same order (same labels, the cells of every
    column other than the four it writes unchanged), each row carrying the
    four score columns. *)
Theorem detect_anomalies_same_rows `{IsolationForestAlgorithm}
    (ambient : Z) (h : gmap loc DataFrame) (r : loc) (d : DataFrame) :
  h !! r = Some d → readings d → nrows d ≠ 0%nat →
  ∃ r' d',
    run (detect_anomalies ambient r) h = (Ok r', <[r' := d']> h) ∧
    nrows d' = nrows d ∧
    df_index d' = df_index d ∧
    well_formed d' ∧
    (∀ c, c ∉ score_columns → df_columns d' !! c = df_columns d !! c) ∧
    (∀ i c, c ∉ score_columns → row d' i !! c = row d i !! c) ∧
    (∀ i c, (i < nrows d)%nat → c ∈ score_columns → is_Some (row d' i !! c)).
Proof.
  intros Hr Hd Hn.
  destruct (readings_feature_matrix d Hd Hn) as (_ & _ & _ & HX).
  exists (fresh (dom h)), (scored_frame d (feature_matrix d)).
  split_and!.
  - by apply detect_anomalies_readings.
  - done.
  - done.
  - apply scored_frame_well_formed; [apply Hd|done].
  - intros c Hc. by apply scored_frame_other.
  - intros i c Hc. by rewrite !row_lookup, scored_frame_other.
  - intros i c Hi Hc. rewrite row_lookup.
    destruct (scored_frame_score d _ c Hc HX) as (col & -> & Hlen). cbn.
    apply lookup_lt_is_Some_2. by rewrite Hlen.
Qed.

Lemma detect_anomalies_same_rows_witness :
  heap_of three_zones !! 1%positive = Some three_zones ∧
  readings three_zones ∧
  nrows three_zones ≠ 0%nat ∧
  ∃ r' d',
    run (detect_anomalies 0 1%positive) (heap_of three_zones)
      = (Ok r', <[r' := d']> (heap_of three_zones)) ∧
    nrows d' = nrows three_zones ∧
    df_index d' = df_index three_zones ∧
    well_formed d' ∧
    (∀ c, c ∉ score_columns → df_columns d' !! c = df_columns three_zones !! c) ∧
    (∀ i c, c ∉ score_columns → row d' i !! c = row three_zones i !! c) ∧
    (∀ i c, (i < nrows three_zones)%nat → c ∈ score_columns → is_Some (row d' i !! c)).
Proof.
  assert (readings three_zones) as Hd by (by apply (bool_decide_unpack _); vm_compute).
  assert (nrows three_zones ≠ 0%nat) as Hn by (cbn; lia).
  split_and!; [reflexivity | exact Hd | exact Hn |].
  apply (detect_anomalies_same_rows 0 (heap_of three_zones) 1%positive three_zones);
    [reflexivity | exact Hd | exact Hn].
Defined.

(** ** Failures of the scorer *)

(** C6, as the code has it: a missing usage or pressure column makes the
    scorer raise [KeyError], whether or not the table has rows; a table
    with both columns and no row makes it raise [ValueError].  In both
    cases the scorer returns no table, and the only frame it leaves behind
    is an unmodified copy of its input. *)
Theorem detect_anomalies_failures `{IsolationForestAlgorithm}
    (ambient : Z) (h : gmap loc DataFrame) (r : loc) (d : DataFrame) :
  h !! r = Some d →
  ((∃ c, c ∈ feature_columns ∧ df_columns d !! c = None) →
   run (detect_anomalies ambient r) h = (Raise KeyError, <[fresh (dom h) := d]> h)) ∧
  ((∀ c, c ∈ feature_columns → is_Some (df_columns d !! c)) → nrows d = 0%nat →
   run (detect_anomalies ambient r) h = (Raise ValueError, <[fresh (dom h) := d]> h)).
Proof.
  intros Hr. rewrite (detect_anomalies_run _ _ _ _ Hr). cbv zeta. split.
  - intros Hmissing. by rewrite feature_rows_missing.
  - intros Hcols Hn. apply feature_columns_cases in Hcols as [[usage Hu] [pressure Hp]].
    rewrite (feature_rows_present _ _ _ Hu Hp), Hn. done.
Qed.

Lemma detect_anomalies_failures_witness :
  heap_of no_pressure !! 1%positive = Some no_pressure ∧
  run (detect_anomalies 0 1%positive) (heap_of no_pressure)
    = (Raise KeyError, <[fresh (dom (heap_of no_pressure)) := no_pressure]> (heap_of no_pressure)) ∧
  heap_of no_rows !! 1%positive = Some no_rows ∧
  run (detect_anomalies 0 1%positive) (heap_of no_rows)
    = (Raise ValueError, <[fresh (dom (heap_of no_rows)) := no_rows]> (heap_of no_rows)).
Proof.
  split_and!; [reflexivity | | reflexivity |].
  - apply (detect_anomalies_failures 0 (heap_of no_pressure) 1%positive no_pressure);
      [reflexivity|].
    exists "Pressure". split; [|reflexivity]. unfold feature_columns. set_solver.
  - apply (detect_anomalies_failures 0 (heap_of no_rows) 1%positive no_rows);
      [reflexivity| |reflexivity].
    apply feature_columns_cases. split; by eexists.
Defined.

(** C6 as the specification words it does not hold: the exception raised
    for a missing column is the library's [KeyError] and the one for an
    empty table is the library's [ValueError]; the code has no exception
    class of its own.  And an empty table without the feature columns
    fails as a missing column does, not as an empty table does. *)
Lemma detect_anomalies_raises_library_errors :
  (run (detect_anomalies 0 1%positive) (heap_of no_pressure)).1 = Raise KeyError ∧
  exn_name KeyError ≠ "FeatureMissingError" ∧
  (run (detect_anomalies 0 1%positive) (heap_of no_rows)).1 = Raise ValueError ∧
  exn_name ValueError ≠ "InsufficientDataError" ∧
  nrows nothing = 0%nat ∧
  (run (detect_anomalies 0 1%positive) (heap_of nothing)).1 = Raise KeyError ∧
  KeyError ≠ ValueError.
Proof. split_and!; by vm_compute. Qed.

(** ** Determinism of the scorer *)

(** C8: the outcome of the scorer depends on the feature rows only.  The
    forest is fitted with the fixed seed, whatever the state of the global
    generator ([ambient1], [ambient2]); on two tables with the same feature
    rows, two runs either raise the same exception or return tables with
    the same four score columns; and two runs on one table in one heap
    agree on everything. *)
Theorem detect_anomalies_deterministic `{IsolationForestAlgorithm}
    (ambient1 ambient2 : Z) (h1 h2 : gmap loc DataFrame) (r1 r2 : loc)
    (d1 d2 : DataFrame) :
  h1 !! r1 = Some d1 → h2 !! r2 = Some d2 →
  feature_rows d1 = feature_rows d2 →
  (∀ X, fit ambient1 (IsolationForest_new (2 # 10) (Some 42)) X
        = fit ambient2 (IsolationForest_new (2 # 10) (Some 42)) X) ∧
  run (detect_anomalies ambient1 r1) h1 = run (detect_anomalies ambient2 r1) h1 ∧
  match (run (detect_anomalies ambient1 r1) h1).1,
        (run (detect_anomalies ambient2 r2) h2).1 with
  | Ok r1', Ok r2' =>
      ∃ d1' d2',
        (run (detect_anomalies ambient1 r1) h1).2 !! r1' = Some d1' ∧
        (run (detect_anomalies ambient2 r2) h2).2 !! r2' = Some d2' ∧
        ∀ c, c ∈ score_columns → df_columns d1' !! c = df_columns d2' !! c
  | Raise e1, Raise e2 => e1 = e2
  | _, _ => False
  end.
Proof.
  intros Hr1 Hr2 Hfeat. split_and!; [done | |].
  - by rewrite !(detect_anomalies_run _ _ _ _ Hr1).
  - rewrite (detect_anomalies_run _ _ _ _ Hr1), (detect_anomalies_run _ _ _ _ Hr2).
    cbv zeta. rewrite <- Hfeat.
    destruct (feature_rows d1) as [rows|e]; [|done].
    destruct (check_array rows) as [X|e]; [|done].
    cbn [fst snd]. eexists _, _. rewrite !lookup_insert_eq. split_and!; [done..|].
    intros c Hc. unfold score_columns in Hc. set_unfold.
    destruct Hc as [->|[->|[->|[->|[]]]]]; by simplify_map_eq.
Qed.

Lemma detect_anomalies_deterministic_witness :
  heap_of three_zones !! 1%positive = Some three_zones ∧
  feature_rows three_zones = feature_rows three_zones ∧
  (∀ X, fit 0 (IsolationForest_new (2 # 10) (Some 42)) X
        = fit 7 (IsolationForest_new (2 # 10) (Some 42)) X) ∧
  run (detect_anomalies 0 1%positive) (heap_of three_zones)
    = run (detect_anomalies 7 1%positive) (heap_of three_zones).
Proof.
  split_and!; [reflexivity | reflexivity | |].
  - apply (detect_anomalies_deterministic 0 7 (heap_of three_zones) (heap_of three_zones)
             1%positive 1%positive three_zones three_zones); reflexivity.
  - apply (detect_anomalies_deterministic 0 7 (heap_of three_zones) (heap_of three_zones)
             1%positive 1%positive three_zones three_zones); reflexivity.
Defined.

(** ** The min-max rescaling *)

Section MinMax.
Local Open Scope Q_scope.

Lemma foldr_Qmin_le a l x : x ∈ a :: l → foldr Qmin a l <= x.
Proof.
  induction l as [|b l IH]; cbn; intros Hx.
  - apply list_elem_of_singleton in Hx. subst x. apply Qle_refl.
  - set_unfold. destruct Hx as [->|[->|Hx]].
    + eapply Qle_trans; [apply Q.le_min_r|]. apply IH. by left.
    + apply Q.le_min_l.
    + eapply Qle_trans; [apply Q.le_min_r|]. apply IH. by right.
Qed.

Lemma foldr_Qmin_glb a l p : (∀ x, x ∈ a :: l → p <= x) → p <= foldr Qmin a l.
Proof.
  induction l as [|b l IH]; cbn; intros Hp.
  - apply Hp. by left.
  - apply Q.min_glb.
    + apply Hp. right. by left.
    + apply IH. intros x Hx. apply Hp.
      apply elem_of_cons in Hx as [->|Hx]; [by left|by do 2 right].
Qed.

Lemma foldr_Qmax_ge a l x : x ∈ a :: l → x <= foldr Qmax a l.
Proof.
  induction l as [|b l IH]; cbn; intros Hx.
  - apply list_elem_of_singleton in Hx. subst x. apply Qle_refl.
  - set_unfold. destruct Hx as [->|[->|Hx]].
    + eapply Qle_trans; [|apply Q.le_max_r]. apply IH. by left.
    + apply Q.le_max_l.
    + eapply Qle_trans; [|apply Q.le_max_r]. apply IH. by right.
Qed.

Lemma foldr_Qmax_lub a l p : (∀ x, x ∈ a :: l → x <= p) → foldr Qmax a l <= p.
Proof.
  induction l as [|b l IH]; cbn; intros Hp.
  - apply Hp. by left.
  - apply Q.max_lub.
    + apply Hp. right. by left.
    + apply IH. intros x Hx. apply Hp.
      apply elem_of_cons in Hx as [->|Hx]; [by left|by do 2 right].
Qed.

Lemma eps_positive : 0 < eps.
Proof. reflexivity. Qed.

Lemma divisor_positive lo hi : 0 < divisor lo hi.
Proof.
  unfold divisor. destruct (Qle_bool (10 * eps) (hi - lo)) eqn:Hz; [|lra].
  apply Qle_bool_iff in Hz. pose proof eps_positive. lra.
Qed.

Lemma divisor_spread lo hi : 10 * eps <= hi - lo → divisor lo hi == hi - lo.
Proof.
  intros Hne. unfold divisor. apply Qle_bool_iff in Hne. by rewrite Hne.
Qed.

Lemma rescaled_eq lo hi x :
  rescaled lo hi x * divisor lo hi == (x - lo) * 100.
Proof.
  pose proof (divisor_positive lo hi) as Hpos.
  unfold rescaled. field. lra.
Qed.

Lemma rescaled_nonneg lo hi x : lo <= x → 0 <= rescaled lo hi x.
Proof.
  intros Hlo. pose proof (divisor_positive lo hi) as Hpos.
  pose proof (rescaled_eq lo hi x) as Heq.
  apply Qnot_lt_le. intros Hneg.
  pose proof (Qmult_lt_compat_r _ _ _ Hpos Hneg) as Hlt. lra.
Qed.

Lemma rescaled_lowest lo hi x : x == lo → rescaled lo hi x == 0.
Proof.
  intros Hx. pose proof (divisor_positive lo hi) as Hpos.
  pose proof (rescaled_eq lo hi x) as Heq.
  assert (rescaled lo hi x * divisor lo hi == 0) as Hz by lra.
  apply Qmult_integral in Hz as [Hz|Hz]; [done|lra].
Qed.

Lemma rescaled_highest lo hi x :
  10 * eps <= hi - lo → x == hi → rescaled lo hi x == 100.
Proof.
  intros Hne Hx. pose proof eps_positive as Heps.
  pose proof (rescaled_eq lo hi x) as Heq.
  rewrite (divisor_spread lo hi Hne) in Heq.
  assert ((rescaled lo hi x - 100) * (hi - lo) == 0) as Hz by lra.
  apply Qmult_integral in Hz as [Hz|Hz]; lra.
Qed.
End MinMax.

(** ** Risk scores *)

Section RiskScores.
Context `{IsolationForestAlgorithm}.
Local Open Scope Q_scope.

Lemma finite_entries_finite {A} (f : A → Q) (l : list A) :
  finite_entries ((λ a, Finite (f a)) <$> l) = f <$> l.
Proof.
  unfold finite_entries. induction l as [|a l IH]; [done|]. cbn. by rewrite IH.
Qed.

Lemma lowest_le a l s : s ∈ a :: l → lowest a l <= - s.
Proof.
  intros Hs. apply foldr_Qmin_le.
  change (- a :: (Qopp <$> l)) with (Qopp <$> a :: l). by apply list_elem_of_fmap_2.
Qed.

Lemma highest_ge a l s : s ∈ a :: l → - s <= highest a l.
Proof.
  intros Hs. apply foldr_Qmax_ge.
  change (- a :: (Qopp <$> l)) with (Qopp <$> a :: l). by apply list_elem_of_fmap_2.
Qed.

Lemma lowest_glb a l p : (∀ s, s ∈ a :: l → p <= - s) → p <= lowest a l.
Proof.
  intros Hp. apply foldr_Qmin_glb. intros x Hx.
  change (- a :: (Qopp <$> l)) with (Qopp <$> a :: l) in Hx.
  apply list_elem_of_fmap in Hx as (s & -> & Hs). by apply Hp.
Qed.

Lemma highest_lub a l p : (∀ s, s ∈ a :: l → - s <= p) → highest a l <= p.
Proof.
  intros Hp. apply foldr_Qmax_lub. intros x Hx.
  change (- a :: (Qopp <$> l)) with (Qopp <$> a :: l) in Hx.
  apply list_elem_of_fmap in Hx as (s & -> & Hs). by apply Hp.
Qed.

Lemma lowest_le_highest a l : lowest a l <= highest a l.
Proof.
  eapply Qle_trans; [apply (lowest_le a l a)|apply (highest_ge a l a)]; by left.
Qed.

(** The scaler divides by a positive number, and every risk score is the
    finite number [rescaled] gives. *)
Lemma risk_scores_closed_form X a l :
  raw_measures X = a :: l →
  _handle_zeros_in_scale
    (fsub (nanmax ((λ s : Q, Finite (- s)) <$> raw_measures X))
          (nanmin ((λ s : Q, Finite (- s)) <$> raw_measures X)))
    = Finite (divisor (lowest a l) (highest a l)) ∧
  0 < divisor (lowest a l) (highest a l) ∧
  risk_scores X =
    (λ s : Q, Finite (rescaled (lowest a l) (highest a l) (- s))) <$> raw_measures X.
Proof.
  intros Hraw. pose proof (divisor_positive (lowest a l) (highest a l)) as Hpos.
  unfold risk_scores, scaler_fit, scaler_transform, nanmin, nanmax.
  rewrite (finite_entries_finite Qopp), Hraw. cbn [fmap list_fmap].
  fold (lowest a l) (highest a l). cbn [fsub _handle_zeros_in_scale].
  assert ((if Qle_bool (10 * eps) (highest a l - lowest a l)
           then Finite (highest a l - lowest a l) else Finite 1)
          = Finite (divisor (lowest a l) (highest a l))) as ->
    by (unfold divisor; by destruct (Qle_bool _ _)).
  split; [done|]. split; [done|].
  cbn [MinMaxScaler_new feature_range fst snd fdiv fsub fmul scale_ min_].
  assert (Qeq_bool (divisor (lowest a l) (highest a l)) 0 = false) as ->.
  { destruct (Qeq_bool _ _) eqn:Hz; [|done]. apply Qeq_bool_iff in Hz. lra. }
  cbn [fmul fsub scale_ min_]. rewrite <- !list_fmap_compose. done.
Qed.
End RiskScores.

Section RiskColumn.
Context `{IsolationForestAlgorithm}.
Local Open Scope Q_scope.
Implicit Types (h : gmap loc DataFrame) (d : DataFrame) (r : loc).

(** On a non-empty table of readings the scorer succeeds, and its risk
    column holds the finite numbers [rescaled] gives. *)
Lemma detect_anomalies_risk_column ambient h r d :
  h !! r = Some d → readings d → nrows d ≠ 0%nat →
  ∃ a l dv,
    raw_measures (feature_matrix d) = a :: l ∧
    _handle_zeros_in_scale
      (fsub (nanmax ((λ s : Q, Finite (- s)) <$> raw_measures (feature_matrix d)))
            (nanmin ((λ s : Q, Finite (- s)) <$> raw_measures (feature_matrix d))))
      = Finite dv ∧
    0 < dv ∧
    run (detect_anomalies ambient r) h =
      (Ok (fresh (dom h)), <[fresh (dom h) := scored_frame d (feature_matrix d)]> h) ∧
    df_columns (scored_frame d (feature_matrix d)) !! "anomaly_score"
      = Some ((λ q, VNum q) <$> raw_measures (feature_matrix d)) ∧
    df_columns (scored_frame d (feature_matrix d)) !! "risk_score"
      = Some ((λ q, VNum q) <$>
              ((λ s : Q, rescaled (lowest a l) (highest a l) (- s)) <$>
               raw_measures (feature_matrix d))).
Proof.
  intros Hr Hd Hn.
  destruct (readings_feature_matrix d Hd Hn) as (_ & _ & _ & HX).
  assert (∃ a l, raw_measures (feature_matrix d) = a :: l) as (a & l & Hraw).
  { destruct (raw_measures (feature_matrix d)) as [|a l] eqn:Hraw; [|by eauto].
    exfalso. apply (f_equal length) in Hraw. unfold raw_measures in Hraw.
    rewrite length_fmap, HX in Hraw. done. }
  destruct (risk_scores_closed_form _ a l Hraw) as (Hdv & Hpos & Hrisk).
  exists a, l, (divisor (lowest a l) (highest a l)).
  split_and!; [done | done | done | | |].
  - by apply detect_anomalies_readings.
  - cbn. by simplify_map_eq.
  - cbn. simplify_map_eq. rewrite Hrisk, <- !list_fmap_compose. done.
Qed.
End RiskColumn.

Section Binary64Rescaling.
Import PrimFloat.

End Binary64Rescaling.

(** C3: on a non-empty table of readings whose rows all have the same raw
    measure (as they do when all rows have the same usage and pressure),
    the scorer succeeds, the scaler divides by a number that is not zero,
    and every risk score is a finite number equal to 0. *)
Theorem detect_anomalies_flat_batch `{IsolationForestAlgorithm}
    (ambient : Z) (h : gmap loc DataFrame) (r : loc) (d : DataFrame) :
  h !! r = Some d → readings d → nrows d ≠ 0%nat →
  (∀ a b, a ∈ raw_measures (feature_matrix d) →
          b ∈ raw_measures (feature_matrix d) → (a == b)%Q) ∨
  (∀ x y, x ∈ feature_matrix d → y ∈ feature_matrix d → x = y) →
  ∃ r' d' risk dv,
    run (detect_anomalies ambient r) h = (Ok r', <[r' := d']> h) ∧
    _handle_zeros_in_scale
      (fsub (nanmax ((λ s : Q, Finite (- s)) <$> raw_measures (feature_matrix d)))
            (nanmin ((λ s : Q, Finite (- s)) <$> raw_measures (feature_matrix d))))
      = Finite dv ∧
    ¬ (dv == 0)%Q ∧
    df_columns d' !! "risk_score" = Some ((λ q, VNum q) <$> risk) ∧
    length risk = nrows d ∧
    Forall (λ q, (q == 0)%Q) risk.
Proof.
  intros Hr Hd Hn Hflat.
  assert (∀ a b, a ∈ raw_measures (feature_matrix d) →
                 b ∈ raw_measures (feature_matrix d) → (a == b)%Q) as Hsame.
  { destruct Hflat as [Hsame|Hrows]; [done|].
    intros a b (x & -> & Hx)%list_elem_of_fmap (y & -> & Hy)%list_elem_of_fmap.
    by rewrite (Hrows x y Hx Hy). }
  clear Hflat.
  destruct (detect_anomalies_risk_column ambient h r d Hr Hd Hn)
    as (a & l & dv & Hraw & Hdv & Hpos & Hrun & _ & Hrisk).
  destruct (readings_feature_matrix d Hd Hn) as (_ & _ & _ & HX).
  assert (length (a :: l) = nrows d) as Hlen
    by (rewrite <- Hraw; unfold raw_measures; by rewrite length_fmap).
  rewrite Hraw in *.
  pose proof (lowest_le_highest a l) as Hle.
  eexists _, _, _, dv. split_and!; [exact Hrun | exact Hdv | lra | exact Hrisk | |].
  - by rewrite length_fmap.
  - apply Forall_fmap, Forall_forall. intros s Hs. cbn.
    apply rescaled_lowest.
    apply Qle_antisym; [|by apply lowest_le].
    apply lowest_glb. intros t Ht. pose proof (Hsame s t Hs Ht). lra.
Qed.

(** ** The injector, run on a heap *)

Section MapMRaise.
Context {A B : Type}.

Lemma mapM_Raise (f : A → outcome B) (l : list A) e :
  mapM f l = Raise e → ∃ a, a ∈ l ∧ f a = Raise e.
Proof.
  induction l as [|a l IH]; cbn; [done|].
  destruct (f a) as [b|e'] eqn:Ha; cbn.
  - destruct (mapM f l) as [bs|e'']; cbn; [done|].
    intros [= ->]. destruct IH as (a' & Ha' & Hf); [done|].
    exists a'. split; [by right|done].
  - intros [= ->]. exists a. split; [by left|done].
Qed.
End MapMRaise.

Section Labels.
Implicit Types (index : list Z) (idx : Z) (col : list value).

Lemma at_labelM_shifted idx index k col :
  Forall is_finite col →
  at_labelM idx index (λ v, add v k) col = Ok (at_label idx index (shifted k) col).
Proof.
  intros Hcol. unfold at_labelM, at_label.
  rewrite (mapM_total _ (uncurry (λ l a, if decide (l = idx) then shifted k a else a))).
  - f_equal. symmetry. apply zip_with_zip.
  - intros [l v] Hin. cbn. case_decide; [|done].
    apply elem_of_zip_r in Hin. rewrite Forall_forall in Hcol.
    specialize (Hcol v Hin). by destruct v as [[q|]|].
Qed.

Lemma at_labelM_raises idx index k col e :
  at_labelM idx index (λ v, add v k) col = Raise e → e = TypeError.
Proof.
  intros ([l v] & _ & Hf)%mapM_Raise. cbn in Hf.
  case_decide; [|done]. destruct v; cbn in Hf; congruence.
Qed.

Lemma at_label_length {A} idx index (f : A → A) (col : list A) :
  length col = length index → length (at_label idx index f col) = length index.
Proof. intros Hlen. unfold at_label. rewrite length_zip_with. lia. Qed.

Lemma at_label_lookup {A} idx index (f : A → A) (col : list A) j :
  at_label idx index f col !! j =
    l ← index !! j; a ← col !! j; Some (if decide (l = idx) then f a else a).
Proof. unfold at_label. by rewrite lookup_zip_with. Qed.

(** With distinct labels, only the row that carries the label changes. *)
Lemma at_label_lookup_ne {A} idx index (f : A → A) (col : list A) i j :
  NoDup index → length col = length index →
  index !! i = Some idx → j ≠ i →
  at_label idx index f col !! j = col !! j.
Proof.
  intros Hnd Hlen Hi Hj. rewrite at_label_lookup.
  destruct (index !! j) as [l|] eqn:Hl; cbn.
  - destruct (col !! j) as [a|]; cbn; [|done].
    rewrite decide_False; [done|]. intros ->.
    apply Hj. by eapply NoDup_lookup.
  - apply lookup_ge_None in Hl. symmetry. apply lookup_ge_None. lia.
Qed.

Lemma at_label_lookup_eq {A} idx index (f : A → A) (col : list A) i a :
  index !! i = Some idx → col !! i = Some a →
  at_label idx index f col !! i = Some (f a).
Proof.
  intros Hi Ha. rewrite at_label_lookup, Hi, Ha. cbn. by rewrite decide_True.
Qed.
End Labels.

Section InjectorRun.
Implicit Types (h : gmap loc DataFrame) (d : DataFrame) (r : loc) (w : World).

Lemma sampled_position_lt w n : n ≠ 0%nat → (sampled_position w n < n)%nat.
Proof.
  intros Hn. unfold sampled_position.
  pose proof (Z.mod_pos_bound (numpy_draw w) (Z.of_nat n)). lia.
Qed.

Lemma run_sample_label_empty h r d u :
  h !! r = Some d → nrows d = 0%nat →
  run (sample_label u r) h = (Raise ValueError, h).
Proof.
  intros Hr Hn. unfold sample_label. rewrite run_bind, (run_deref _ _ _ Hr).
  by rewrite decide_True.
Qed.

Lemma run_sample_label h r d w :
  h !! r = Some d → nrows d ≠ 0%nat →
  ∃ idx, df_index d !! sampled_position w (nrows d) = Some idx ∧
         run (sample_label (numpy_draw w) r) h = (Ok idx, h).
Proof.
  intros Hr Hn.
  destruct (lookup_lt_is_Some_2 (df_index d) (sampled_position w (nrows d)))
    as [idx Hidx]; [by apply sampled_position_lt|].
  exists idx. split; [done|].
  unfold sample_label. rewrite run_bind, (run_deref _ _ _ Hr).
  rewrite decide_False by done. fold (sampled_position w (nrows d)). by rewrite Hidx.
Qed.

Lemma run_loc_iadd_at h r d idx c k col :
  df_columns d !! c = Some col → idx ∈ df_index d → Forall is_finite col →
  run (loc_iadd r idx c k) (<[r := d]> h) =
    (Ok tt, <[r := mkDataFrame (df_index d)
                     (<[c := at_label idx (df_index d) (shifted k) col]> (df_columns d))]> h).
Proof.
  intros Hc Hidx Hcol. unfold loc_iadd.
  rewrite run_bind, (run_deref _ r d) by apply lookup_insert_eq.
  rewrite Hc, decide_True by done.
  rewrite run_bind, run_lift, at_labelM_shifted by done.
  cbn. by rewrite insert_insert_eq.
Qed.

Lemma run_loc_set_at h r d idx c v :
  run (loc_set r idx c v) (<[r := d]> h) =
    (Ok tt, <[r := mkDataFrame (df_index d)
                     (<[c := at_label idx (df_index d) (λ _, v)
                               (default (replicate (nrows d) VNaN) (df_columns d !! c))]>
                        (df_columns d))]> h).
Proof.
  unfold loc_set. rewrite run_bind, (run_deref _ r d) by apply lookup_insert_eq.
  cbn. by rewrite insert_insert_eq.
Qed.

(** On a non-empty table of readings the injector returns the injected
    frame, as a new object. *)
Lemma generate_live_data_readings w h r d :
  h !! r = Some d → readings d → nrows d ≠ 0%nat →
  ∃ idx, df_index d !! sampled_position w (nrows d) = Some idx ∧
         run (generate_live_data w r) h =
           (Ok (fresh (dom h)), <[fresh (dom h) := injected_frame w d idx]> h).
Proof.
  intros Hr [Hwf Hcols] Hn.
  rewrite Forall_forall in Hcols.
  apply feature_columns_cases in Hcols as [Hu Hp]. unfold numeric_column in Hu, Hp.
  destruct (df_columns d !! "Water_Usage_Liters") as [usage|] eqn:Husage; [|done].
  destruct (df_columns d !! "Pressure") as [pressure|] eqn:Hpressure; [|done].
  set (r' := fresh (dom h)).
  destruct (run_sample_label (<[r' := d]> h) r' d w) as (idx & Hidx & Hsample);
    [apply lookup_insert_eq | done |].
  exists idx. split; [done|].
  assert (idx ∈ df_index d) as Hin by (by eapply list_elem_of_lookup_2).
  unfold generate_live_data.
  rewrite run_bind, (run_copy _ _ _ Hr). fold r'.
  rewrite run_bind, Hsample.
  rewrite run_bind, (run_loc_iadd_at _ _ _ _ _ _ usage) by done.
  rewrite run_bind, (run_loc_iadd_at _ _ _ _ _ _ pressure)
    by (try done; cbn; by rewrite lookup_insert_ne).
  rewrite run_bind, run_loc_set_at. cbn [run py_ret].
  unfold injected_frame. rewrite Husage, Hpressure. cbn.
  rewrite !lookup_insert_ne by done. done.
Qed.
End InjectorRun.

(** ** The time stamp *)

Section Timestamp.
Implicit Types (w : World).

Lemma is_digit_digit n : is_digit (digit n) = true.
Proof.
  unfold is_digit, digit. apply bool_decide_eq_true.
  pose proof (Z.mod_pos_bound n 10).
  rewrite nat_ascii_embedding by lia. lia.
Qed.

Lemma strftime_fields t :
  strftime t "%Y-%m-%d %H:%M:%S" =
    zero_pad 4 (year t) ++ "-" ++ zero_pad 2 (month t) ++ "-" ++ zero_pad 2 (day t)
    ++ " " ++ zero_pad 2 (hour t) ++ ":" ++ zero_pad 2 (minute t) ++ ":"
    ++ zero_pad 2 (second t).
Proof. reflexivity. Qed.

Lemma timestamp_layout w : matches layout (timestamp w) = true.
Proof.
  unfold timestamp. rewrite strftime_fields.
  cbv [String.append zero_pad matches layout].
  rewrite !is_digit_digit. reflexivity.
Qed.
End Timestamp.

(** ** What the injector returns *)

Section InjectorResult.
Implicit Types (h : gmap loc DataFrame) (d : DataFrame) (r : loc) (w : World).

Lemma injected_frame_other w d idx c :
  c ∉ live_columns → df_columns (injected_frame w d idx) !! c = df_columns d !! c.
Proof.
  unfold live_columns. intros Hc. set_unfold. cbn.
  rewrite !lookup_insert_ne by naive_solver. done.
Qed.

Lemma injected_frame_usage w d idx :
  df_columns (injected_frame w d idx) !! "Water_Usage_Liters" =
    Some (at_label idx (df_index d) (shifted (inject_Z (usage_offset w)))
            (default [] (df_columns d !! "Water_Usage_Liters"))).
Proof. cbn. by simplify_map_eq. Qed.

Lemma injected_frame_pressure w d idx :
  df_columns (injected_frame w d idx) !! "Pressure" =
    Some (at_label idx (df_index d) (shifted (pressure_offset w))
            (default [] (df_columns d !! "Pressure"))).
Proof. cbn. by simplify_map_eq. Qed.

Lemma injected_frame_date w d idx :
  df_columns (injected_frame w d idx) !! "Date" =
    Some (at_label idx (df_index d) (λ _, VStr (timestamp w))
            (default (replicate (nrows d) VNaN) (df_columns d !! "Date"))).
Proof. cbn. by simplify_map_eq. Qed.

(** The columns of a table of readings that carries dates. *)
Lemma dated_readings_columns d :
  readings d → is_Some (df_columns d !! "Date") →
  ∃ usage pressure date,
    df_columns d !! "Water_Usage_Liters" = Some usage ∧
    df_columns d !! "Pressure" = Some pressure ∧
    df_columns d !! "Date" = Some date ∧
    Forall is_finite usage ∧ Forall is_finite pressure ∧
    length usage = nrows d ∧ length pressure = nrows d ∧ length date = nrows d.
Proof.
  intros [Hwf Hcols] [date Hdate].
  rewrite Forall_forall in Hcols.
  apply feature_columns_cases in Hcols as [Hu Hp]. unfold numeric_column in Hu, Hp.
  destruct (df_columns d !! "Water_Usage_Liters") as [usage|] eqn:Husage; [|done].
  destruct (df_columns d !! "Pressure") as [pressure|] eqn:Hpressure; [|done].
  exists usage, pressure, date.
  split_and!; [done..| | |]; by eapply (Hwf _ _).
Qed.

Lemma injected_frame_well_formed w d idx :
  readings d → is_Some (df_columns d !! "Date") →
  well_formed (injected_frame w d idx).
Proof.
  intros Hd Hdate.
  destruct (dated_readings_columns d Hd Hdate)
    as (usage & pressure & date & Hu & Hp & Hda & _ & _ & Hlu & Hlp & Hld).
  unfold well_formed, injected_frame. rewrite Hu, Hp, Hda. cbn [default from_option id].
  cbn [df_columns nrows df_index].
  repeat apply map_Forall_insert_2; [by apply at_label_length..|apply Hd].
Qed.

Lemma injected_frame_dom w d idx :
  readings d → is_Some (df_columns d !! "Date") →
  dom (df_columns (injected_frame w d idx)) = dom (df_columns d).
Proof.
  intros Hd Hdate.
  destruct (dated_readings_columns d Hd Hdate)
    as (usage & pressure & date & Hu & Hp & Hda & _).
  apply (elem_of_dom_2 (D := gset string)) in Hu, Hp, Hda.
  cbn. rewrite !dom_insert_L. set_solver.
Qed.

(** With distinct labels, the rows the sampling did not pick are as in
    the input. *)
Lemma injected_frame_other_rows w d i idx j :
  readings d → is_Some (df_columns d !! "Date") → NoDup (df_index d) →
  df_index d !! i = Some idx → j ≠ i →
  row (injected_frame w d idx) j = row d j.
Proof.
  intros Hd Hdate Hnd Hi Hj.
  destruct (dated_readings_columns d Hd Hdate)
    as (usage & pressure & date & Hu & Hp & Hda & _ & _ & Hlu & Hlp & Hld).
  apply map_eq. intros c. rewrite !row_lookup.
  destruct (decide (c = "Water_Usage_Liters")) as [->|Hnu].
  { rewrite injected_frame_usage, Hu. cbn. by eapply at_label_lookup_ne. }
  destruct (decide (c = "Pressure")) as [->|Hnp].
  { rewrite injected_frame_pressure, Hp. cbn. by eapply at_label_lookup_ne. }
  destruct (decide (c = "Date")) as [->|Hnd'].
  { rewrite injected_frame_date, Hda. cbn. by eapply at_label_lookup_ne. }
  rewrite injected_frame_other; [done|]. unfold live_columns. set_solver.
Qed.
End InjectorResult.

(** X13: on a non-empty table of readings with dates whose row labels are
    pairwise distinct, whatever the draws and the clock, the injector
    returns a new table with the same labels, columns and length; its rows
    other than the sampled one are those of the input, its columns other
    than usage, pressure and date are those of the input, and the date of
    the sampled row is the clock's time as YYYY-MM-DD HH:MM:SS. *)
Theorem generate_live_data_other_cells
    (w : World) (h : gmap loc DataFrame) (r : loc) (d : DataFrame) :
  h !! r = Some d → readings d → is_Some (df_columns d !! "Date") →
  nrows d ≠ 0%nat → NoDup (df_index d) → Datetime.valid (now w) →
  ∃ r' d' i,
    run (generate_live_data w r) h = (Ok r', <[r' := d']> h) ∧
    r' ≠ r ∧
    (i < nrows d)%nat ∧
    nrows d' = nrows d ∧
    df_index d' = df_index d ∧
    well_formed d' ∧
    dom (df_columns d') = dom (df_columns d) ∧
    (∀ j, j ≠ i → row d' j = row d j) ∧
    (∀ j c, c ∉ live_columns → row d' j !! c = row d j !! c) ∧
    row d' i !! "Date" = Some (VStr (timestamp w)) ∧
    matches layout (timestamp w) = true.
Proof.
  intros Hr Hd Hdate Hn Hnd _.
  destruct (generate_live_data_readings w h r d Hr Hd Hn) as (idx & Hidx & Hrun).
  destruct (dated_readings_columns d Hd Hdate)
    as (usage & pressure & date & Hu & Hp & Hda & Hfu & Hfp & Hlu & Hlp & Hld).
  pose proof (sampled_position_lt w (nrows d) Hn) as Hlt.
  set (i := sampled_position w (nrows d)) in *.
  destruct (lookup_lt_is_Some_2 date i) as [vd Hvd]; [by rewrite Hld|].
  exists (fresh (dom h)), (injected_frame w d idx), i.
  split_and!.
  - exact Hrun.
  - apply not_eq_sym. by eapply fresh_not_allocated.
  - exact Hlt.
  - done.
  - done.
  - by apply injected_frame_well_formed.
  - by apply injected_frame_dom.
  - intros j Hj. by eapply injected_frame_other_rows.
  - intros j c Hc. by rewrite !row_lookup, injected_frame_other.
  - rewrite row_lookup, injected_frame_date, Hda. cbn.
    by rewrite (at_label_lookup_eq _ _ _ _ _ _ Hidx Hvd).
  - apply timestamp_layout.
Qed.

Lemma generate_live_data_other_cells_witness :
  heap_of three_zones !! 1%positive = Some three_zones ∧
  readings three_zones ∧
  is_Some (df_columns three_zones !! "Date") ∧
  nrows three_zones ≠ 0%nat ∧
  NoDup (df_index three_zones) ∧
  Datetime.valid (now a_world) ∧
  ∃ r' d' i,
    run (generate_live_data a_world 1%positive) (heap_of three_zones)
      = (Ok r', <[r' := d']> (heap_of three_zones)) ∧
    r' ≠ 1%positive ∧
    (i < nrows three_zones)%nat ∧
    nrows d' = nrows three_zones ∧
    df_index d' = df_index three_zones ∧
    well_formed d' ∧
    dom (df_columns d') = dom (df_columns three_zones) ∧
    (∀ j, j ≠ i → row d' j = row three_zones j) ∧
    (∀ j c, c ∉ live_columns → row d' j !! c = row three_zones j !! c) ∧
    row d' i !! "Date" = Some (VStr (timestamp a_world)) ∧
    matches layout (timestamp a_world) = true.
Proof.
  assert (readings three_zones) as Hd by (by apply (bool_decide_unpack _); vm_compute).
  assert (is_Some (df_columns three_zones !! "Date")) as Hdate by (by eexists).
  assert (nrows three_zones ≠ 0%nat) as Hn by (cbn; lia).
  assert (NoDup (df_index three_zones)) as Hnd
    by (by apply (bool_decide_unpack _); vm_compute).
  assert (Datetime.valid (now a_world)) as Hclock by (unfold Datetime.valid; cbn; lia).
  split_and!; [reflexivity | exact Hd | exact Hdate | exact Hn | exact Hnd | exact Hclock |].
  apply (generate_live_data_other_cells a_world (heap_of three_zones) 1%positive three_zones);
    [reflexivity | exact Hd | exact Hdate | exact Hn | exact Hnd | exact Hclock].
Defined.


(** ** Failures of the injector *)

Section InjectorFailures.
Implicit Types (h : gmap loc DataFrame) (d : DataFrame) (r : loc) (w : World).

(** An in-place addition either succeeds, changing the frame it works on
    and nothing else, or raises [KeyError] or [TypeError]. *)
Lemma run_loc_iadd_cases h r d idx c k :
  (∃ d', run (loc_iadd r idx c k) (<[r := d]> h) = (Ok tt, <[r := d']> h) ∧
         nrows d' = nrows d) ∨
  (∃ h', run (loc_iadd r idx c k) (<[r := d]> h) = (Raise KeyError, h')) ∨
  (∃ h', run (loc_iadd r idx c k) (<[r := d]> h) = (Raise TypeError, h')).
Proof.
  unfold loc_iadd. rewrite run_bind, (run_deref _ r d) by apply lookup_insert_eq.
  destruct (df_columns d !! c) as [col|]; [|right; left; by eexists].
  case_decide; [|right; left; by eexists].
  rewrite run_bind, run_lift.
  destruct (at_labelM idx (df_index d) (λ v, add v k) col) as [col'|e] eqn:Hcol.
  - left. eexists. cbn. by rewrite insert_insert_eq.
  - apply at_labelM_raises in Hcol as ->. right; right. by eexists.
Qed.

Lemma generate_live_data_empty w h r d :
  h !! r = Some d → nrows d = 0%nat →
  run (generate_live_data w r) h = (Raise ValueError, <[fresh (dom h) := d]> h).
Proof.
  intros Hr Hn. unfold generate_live_data.
  rewrite run_bind, (run_copy _ _ _ Hr).
  rewrite run_bind, (run_sample_label_empty _ _ d) by (done || apply lookup_insert_eq).
  done.
Qed.

Lemma generate_live_data_nonempty w h r d :
  h !! r = Some d → nrows d ≠ 0%nat →
  (run (generate_live_data w r) h).1 ≠ Raise ValueError.
Proof.
  intros Hr Hn. unfold generate_live_data.
  rewrite run_bind, (run_copy _ _ _ Hr).
  set (r' := fresh (dom h)).
  destruct (run_sample_label (<[r' := d]> h) r' d w) as (idx & _ & Hsample);
    [apply lookup_insert_eq | done |].
  rewrite run_bind, Hsample.
  destruct (run_loc_iadd_cases h r' d idx "Water_Usage_Liters"
              (inject_Z (Random.randint (randint_draw w) (-50) 200)))
    as [(d1 & Hrun1 & Hn1)|[[h' Hrun1]|[h' Hrun1]]];
    rewrite run_bind, Hrun1; [|done..].
  destruct (run_loc_iadd_cases h r' d1 idx "Pressure"
              (Random.uniform (uniform_draw w) (- (3 # 10)) (2 # 10)))
    as [(d2 & Hrun2 & Hn2)|[[h' Hrun2]|[h' Hrun2]]];
    rewrite run_bind, Hrun2; [|done..].
  by rewrite run_bind, run_loc_set_at.
Qed.
End InjectorFailures.

(** C7, as the code has it: the injector raises [ValueError] exactly when
    its input has no row, and on every non-empty table of readings it
    returns a table. *)
Theorem generate_live_data_fails_iff_empty
    (w : World) (h : gmap loc DataFrame) (r : loc) (d : DataFrame) :
  h !! r = Some d →
  ((run (generate_live_data w r) h).1 = Raise ValueError ↔ nrows d = 0%nat) ∧
  (readings d → nrows d ≠ 0%nat → ∃ r', (run (generate_live_data w r) h).1 = Ok r').
Proof.
  intros Hr. split; [split|].
  - intros Hraise. destruct (decide (nrows d = 0%nat)) as [|Hn]; [done|].
    by apply (generate_live_data_nonempty w h r d Hr Hn) in Hraise.
  - intros Hn. by rewrite (generate_live_data_empty w h r d Hr Hn).
  - intros Hd Hn.
    destruct (generate_live_data_readings w h r d Hr Hd Hn) as (idx & _ & ->).
    by eexists.
Qed.

Lemma generate_live_data_fails_iff_empty_witness :
  heap_of no_rows !! 1%positive = Some no_rows ∧
  ((run (generate_live_data a_world 1%positive) (heap_of no_rows)).1 = Raise ValueError
   ↔ nrows no_rows = 0%nat) ∧
  heap_of three_zones !! 1%positive = Some three_zones ∧
  ∃ r', (run (generate_live_data a_world 1%positive) (heap_of three_zones)).1 = Ok r'.
Proof.
  split_and!; [reflexivity | | reflexivity |].
  - apply (generate_live_data_fails_iff_empty a_world (heap_of no_rows) 1%positive no_rows).
    reflexivity.
  - apply (generate_live_data_fails_iff_empty a_world (heap_of three_zones) 1%positive
             three_zones); [reflexivity | | cbn; lia].
    by apply (bool_decide_unpack _); vm_compute.
Defined.

(** C7 as the specification words it does not hold: on an empty table the
    exception is the library's [ValueError]; the code has no exception
    class named EmptyInputError. *)
Lemma generate_live_data_raises_library_error :
  nrows no_rows = 0%nat ∧
  (run (generate_live_data a_world 1%positive) (heap_of no_rows)).1 = Raise ValueError ∧
  exn_name ValueError ≠ "EmptyInputError".
Proof. split_and!; by vm_compute. Qed.

(** ** The explanation text *)

(** C9, as the code has it: the text depends on the risk level of the row
    and on nothing else; High and Medium have their own texts, and every
    other level, Low or not, gets the text of Low.  The function fails
    (with [KeyError]) only on a row without a risk level. *)
Theorem generate_explanation_by_level (row row' : gmap string value) :
  (row !! "Risk_Level" = row' !! "Risk_Level" →
   generate_explanation row = generate_explanation row') ∧
  (row !! "Risk_Level" = Some (VStr "High") → generate_explanation row = Ok text_high) ∧
  (row !! "Risk_Level" = Some (VStr "Medium") → generate_explanation row = Ok text_medium) ∧
  (row !! "Risk_Level" = Some (VStr "Low") → generate_explanation row = Ok text_low) ∧
  (∀ v, row !! "Risk_Level" = Some v → v ≠ VStr "High" → v ≠ VStr "Medium" →
        generate_explanation row = Ok text_low) ∧
  (row !! "Risk_Level" = None ↔ generate_explanation row = Raise KeyError) ∧
  text_high ≠ text_medium ∧ text_medium ≠ text_low ∧ text_high ≠ text_low.
Proof.
  unfold generate_explanation, row_getitem. split_and!.
  - by intros <-.
  - by intros ->.
  - by intros ->.
  - by intros ->.
  - intros v -> Hh Hm. cbn.
    destruct v as [x|s]; cbn; [done|].
    rewrite !bool_decide_eq_false_2 by congruence. done.
  - split; [by intros ->|].
    destruct (row !! "Risk_Level") as [v|]; [|done]. cbn.
    destruct (eq_str v "High"); [done|]. by destruct (eq_str v "Medium").
  - done.
  - done.
  - done.
Qed.

Lemma generate_explanation_by_level_witness :
  generate_explanation {["Risk_Level" := VStr "High"; "risk_score" := VNum 85]}
    = generate_explanation {["Risk_Level" := VStr "High"; "risk_score" := VNum 71]} ∧
  generate_explanation {["Risk_Level" := VStr "High"; "risk_score" := VNum 85]}
    = Ok text_high.
Proof.
  split.
  - apply (generate_explanation_by_level
             {["Risk_Level" := VStr "High"; "risk_score" := VNum 85]}
             {["Risk_Level" := VStr "High"; "risk_score" := VNum 71]}).
    reflexivity.
  - apply (generate_explanation_by_level
             {["Risk_Level" := VStr "High"; "risk_score" := VNum 85]} ∅).
    reflexivity.
Defined.

(** C9 as the specification words it does not hold: a risk level that is
    none of the three tiers does not make the function fail; it gets the
    text of Low. *)
Lemma generate_explanation_unknown_level :
  generate_explanation {["Risk_Level" := VStr "Critical"]} = Ok text_low ∧
  generate_explanation {["Risk_Level" := VNum 85]} = Ok text_low ∧
  VStr "Critical" ≠ VStr "Low".
Proof. split_and!; by vm_compute. Qed.

(** ** The flat batch, on the worked example *)

Lemma detect_anomalies_flat_batch_witness :
  heap_of flat_batch !! 1%positive = Some flat_batch ∧
  readings flat_batch ∧
  nrows flat_batch ≠ 0%nat ∧
  (∀ x y, x ∈ feature_matrix flat_batch → y ∈ feature_matrix flat_batch → x = y) ∧
  ∃ r' d' risk dv,
    run (detect_anomalies 0 1%positive) (heap_of flat_batch)
      = (Ok r', <[r' := d']> (heap_of flat_batch)) ∧
    _handle_zeros_in_scale
      (fsub (nanmax ((λ s : Q, Finite (- s)) <$> raw_measures (feature_matrix flat_batch)))
            (nanmin ((λ s : Q, Finite (- s)) <$> raw_measures (feature_matrix flat_batch))))
      = Finite dv ∧
    ¬ (dv == 0)%Q ∧
    df_columns d' !! "risk_score" = Some ((λ q, VNum q) <$> risk) ∧
    length risk = nrows flat_batch ∧
    Forall (λ q, (q == 0)%Q) risk.
Proof.
  assert (readings flat_batch) as Hd by (by apply (bool_decide_unpack _); vm_compute).
  assert (nrows flat_batch ≠ 0%nat) as Hn by (cbn; lia).
  assert (∀ x y, x ∈ feature_matrix flat_batch → y ∈ feature_matrix flat_batch → x = y)
    as Hrows.
  { intros x y Hx Hy.
    change (feature_matrix flat_batch)
      with [[100%Q; 5%Q]; [100%Q; 5%Q]; [100%Q; 5%Q]] in Hx, Hy.
    set_unfold. naive_solver. }
  split_and!; [reflexivity | exact Hd | exact Hn | exact Hrows |].
  apply (detect_anomalies_flat_batch 0 (heap_of flat_batch) 1%positive flat_batch);
    [reflexivity | exact Hd | exact Hn | right; exact Hrows].
Defined.

(** * Further properties of the scorer *)

Section ScoredRows.
Context `{IsolationForestAlgorithm}.
Local Open Scope Q_scope.
Implicit Types (h : gmap loc DataFrame) (d : DataFrame) (r : loc).

Lemma tier_high q : 70 <= q → tier (Finite q) = "High"%string.
Proof. intros Hq. unfold tier, fge. apply Qle_bool_iff in Hq. by rewrite Hq. Qed.

Lemma tier_low q : q < 40 → tier (Finite q) = "Low"%string.
Proof.
  intros Hq. unfold tier, fge.
  assert (Qle_bool 70 q = false) as -> by (apply Qle_bool_false; lra).
  assert (Qle_bool 40 q = false) as -> by (by apply Qle_bool_false). done.
Qed.

(** The four score cells of row [i] of the scored frame. *)
Lemma scored_frame_cells d X a l i s :
  raw_measures X = a :: l → raw_measures X !! i = Some s →
  row (scored_frame d X) i !! "anomaly_score"%string = Some (VNum s) ∧
  row (scored_frame d X) i !! "anomaly"%string
    = Some (VNum (if Qlt_le_dec s 0 then - 1 else 1)) ∧
  row (scored_frame d X) i !! "risk_score"%string
    = Some (VNum (rescaled (lowest a l) (highest a l) (- s))) ∧
  row (scored_frame d X) i !! "Risk_Level"%string
    = Some (VStr (tier (Finite (rescaled (lowest a l) (highest a l) (- s))))).
Proof.
  intros Hraw Hs. destruct (risk_scores_closed_form X a l Hraw) as (_ & _ & Hrisk).
  rewrite !row_lookup. cbn [scored_frame df_columns]. simplify_map_eq.
  unfold anomaly_labels. rewrite Hrisk, !list_lookup_fmap, Hs. done.
Qed.

Lemma rescaled_monotone lo hi x y :
  lo <= hi → x <= y → rescaled lo hi x <= rescaled lo hi y.
Proof.
  intros Hle Hxy. pose proof (divisor_positive lo hi) as Hpos.
  pose proof (rescaled_eq lo hi x) as Hx. pose proof (rescaled_eq lo hi y) as Hy.
  apply Qnot_lt_le. intros Hlt.
  pose proof (Qmult_lt_compat_r _ _ _ Hpos Hlt) as Hm. lra.
Qed.

Lemma foldr_Qmax_attained a l : foldr Qmax a l ∈ a :: l.
Proof.
  induction l as [|b l IH]; cbn; [by left|].
  unfold Qmax at 1, GenericMinMax.gmax.
  destruct (b ?= foldr Qmax a l)%Q; [right; by left| |right; by left].
  apply elem_of_cons in IH as [->|IH]; [by left|by do 2 right].
Qed.

Lemma foldr_Qmin_attained a l : foldr Qmin a l ∈ a :: l.
Proof.
  induction l as [|b l IH]; cbn; [by left|].
  unfold Qmin at 1, GenericMinMax.gmin.
  destruct (b ?= foldr Qmin a l)%Q; [right; by left|right; by left|].
  apply elem_of_cons in IH as [->|IH]; [by left|by do 2 right].
Qed.
End ScoredRows.

(** X1: on a non-empty table of readings, every row of the scored table
    carries the decision value of its own feature row, the flag -1 exactly
    when that value is negative, a finite risk score that is not negative,
    and the level [risk_level] gives for that very score. *)
Theorem detect_anomalies_rows_consistent `{IsolationForestAlgorithm}
    (ambient : Z) (h : gmap loc DataFrame) (r : loc) (d : DataFrame) :
  h !! r = Some d → readings d → nrows d ≠ 0%nat →
  ∃ r' d',
    run (detect_anomalies ambient r) h = (Ok r', <[r' := d']> h) ∧
    ∀ i, (i < nrows d)%nat →
      ∃ x s q level,
        feature_matrix d !! i = Some x ∧
        s = decision (grow (2 # 10) 42 (feature_matrix d)) x ∧
        row d' i !! "anomaly_score" = Some (VNum s) ∧
        row d' i !! "anomaly" = Some (VNum (if Qlt_le_dec s 0 then - 1 else 1)) ∧
        row d' i !! "risk_score" = Some (VNum q) ∧
        (0 <= q)%Q ∧
        row d' i !! "Risk_Level" = Some level ∧
        risk_level (VNum q) = Ok level.
Proof.
  intros Hr Hd Hn.
  destruct (detect_anomalies_risk_column ambient h r d Hr Hd Hn)
    as (a & l & dv & Hraw & _ & _ & Hrun & _ & _).
  destruct (readings_feature_matrix d Hd Hn) as (_ & _ & _ & HX).
  eexists _, _. split; [exact Hrun|]. intros i Hi.
  destruct (lookup_lt_is_Some_2 (feature_matrix d) i) as [x Hx]; [by rewrite HX|].
  assert (raw_measures (feature_matrix d) !! i
          = Some (decision (grow (2 # 10) 42 (feature_matrix d)) x)) as Hs
    by (unfold raw_measures; by rewrite list_lookup_fmap, Hx).
  destruct (scored_frame_cells d _ a l i _ Hraw Hs) as (Hc1 & Hc2 & Hc3 & Hc4).
  assert (decision (grow (2 # 10) 42 (feature_matrix d)) x ∈ a :: l) as Hin
    by (rewrite <- Hraw; by eapply list_elem_of_lookup_2).
  pose proof (rescaled_nonneg (lowest a l) (highest a l)
                (- decision (grow (2 # 10) 42 (feature_matrix d)) x)
                (lowest_le a l _ Hin)) as H0.
  eexists x, _, _, _. split_and!; [done | done | exact Hc1 | exact Hc2 | exact Hc3
    | exact H0 | exact Hc4 | apply risk_level_float].
Qed.

Lemma detect_anomalies_rows_consistent_witness :
  heap_of flat_batch !! 1%positive = Some flat_batch ∧
  readings flat_batch ∧
  nrows flat_batch ≠ 0%nat ∧
  ∃ r' d',
    run (detect_anomalies 0 1%positive) (heap_of flat_batch)
      = (Ok r', <[r' := d']> (heap_of flat_batch)) ∧
    ∀ i, (i < nrows flat_batch)%nat →
      ∃ x s q level,
        feature_matrix flat_batch !! i = Some x ∧
        s = decision (grow (2 # 10) 42 (feature_matrix flat_batch)) x ∧
        row d' i !! "anomaly_score" = Some (VNum s) ∧
        row d' i !! "anomaly" = Some (VNum (if Qlt_le_dec s 0 then - 1 else 1)) ∧
        row d' i !! "risk_score" = Some (VNum q) ∧
        (0 <= q)%Q ∧
        row d' i !! "Risk_Level" = Some level ∧
        risk_level (VNum q) = Ok level.
Proof.
  assert (readings flat_batch) as Hd by (by apply (bool_decide_unpack _); vm_compute).
  assert (nrows flat_batch ≠ 0%nat) as Hn by (cbn; lia).
  split_and!; [reflexivity | exact Hd | exact Hn |].
  apply (detect_anomalies_rows_consistent 0 (heap_of flat_batch) 1%positive flat_batch);
    [reflexivity | exact Hd | exact Hn].
Defined.

(** X2: on a non-empty table of readings with two raw measures that lie
    at least ten machine epsilons apart (the range below which the scaler
    does not divide by the range), the scored table has a row of level
    High and another row of risk score 0 and level Low. *)
Theorem detect_anomalies_extremes `{IsolationForestAlgorithm}
    (ambient : Z) (h : gmap loc DataFrame) (r : loc) (d : DataFrame) :
  h !! r = Some d → readings d → nrows d ≠ 0%nat →
  (∃ a b, a ∈ raw_measures (feature_matrix d) ∧
          b ∈ raw_measures (feature_matrix d) ∧ (10 * eps <= a - b)%Q) →
  ∃ r' d' i j qj,
    run (detect_anomalies ambient r) h = (Ok r', <[r' := d']> h) ∧
    (i < nrows d)%nat ∧ (j < nrows d)%nat ∧ i ≠ j ∧
    row d' i !! "Risk_Level" = Some (VStr "High") ∧
    row d' j !! "risk_score" = Some (VNum qj) ∧ (qj == 0)%Q ∧
    row d' j !! "Risk_Level" = Some (VStr "Low").
Proof.
  intros Hr Hd Hn (a' & b' & Ha' & Hb' & Hne). pose proof eps_positive as Heps.
  destruct (detect_anomalies_risk_column ambient h r d Hr Hd Hn)
    as (a & l & dv & Hraw & _ & _ & Hrun & _ & _).
  assert (length (raw_measures (feature_matrix d)) = nrows d) as Hlen.
  { destruct (readings_feature_matrix d Hd Hn) as (_ & _ & _ & HX).
    unfold raw_measures. by rewrite length_fmap. }
  rewrite Hraw in Ha', Hb'.
  pose proof (lowest_le_highest a l) as Hle.
  assert (10 * eps <= highest a l - lowest a l)%Q as Hspread.
  { pose proof (lowest_le a l a' Ha'). pose proof (highest_ge a l a' Ha').
    pose proof (lowest_le a l b' Hb'). pose proof (highest_ge a l b' Hb'). lra. }
  (* the rows that attain the largest and the smallest negated measure *)
  pose proof (foldr_Qmax_attained (- a)%Q (Qopp <$> l)) as Hmax.
  pose proof (foldr_Qmin_attained (- a)%Q (Qopp <$> l)) as Hmin.
  fold (highest a l) in Hmax. fold (lowest a l) in Hmin.
  change ((- a)%Q :: (Qopp <$> l)) with (Qopp <$> a :: l) in Hmax, Hmin.
  apply list_elem_of_fmap in Hmax as (si & Hsi & Hini).
  apply list_elem_of_fmap in Hmin as (sj & Hsj & Hinj).
  apply list_elem_of_lookup in Hini as [i Hi]. apply list_elem_of_lookup in Hinj as [j Hj].
  rewrite <- Hraw in Hi, Hj.
  destruct (scored_frame_cells d _ a l i si Hraw Hi) as (_ & _ & Hri & Hli).
  destruct (scored_frame_cells d _ a l j sj Hraw Hj) as (_ & _ & Hrj & Hlj).
  assert (rescaled (lowest a l) (highest a l) (- si) == 100)%Q as Hqi
    by (apply rescaled_highest; [done|by rewrite Hsi]).
  assert (rescaled (lowest a l) (highest a l) (- sj) == 0)%Q as Hqj
    by (apply rescaled_lowest; by rewrite Hsj).
  eexists _, _, i, j, _.
  split_and!; [exact Hrun | | | | | exact Hrj | exact Hqj |].
  - rewrite <- Hlen. by eapply lookup_lt_Some.
  - rewrite <- Hlen. by eapply lookup_lt_Some.
  - intros ->. rewrite Hi in Hj. injection Hj as Heq.
    rewrite Hsi, Hsj, Heq in Hspread. lra.
  - rewrite Hli. do 2 f_equal. apply tier_high. lra.
  - rewrite Hlj. do 2 f_equal. apply tier_low. lra.
Qed.

Lemma detect_anomalies_extremes_witness :
  heap_of three_zones !! 1%positive = Some three_zones ∧
  readings three_zones ∧
  nrows three_zones ≠ 0%nat ∧
  ∃ r' d' i j qj,
    run (detect_anomalies 0 1%positive) (heap_of three_zones)
      = (Ok r', <[r' := d']> (heap_of three_zones)) ∧
    (i < nrows three_zones)%nat ∧ (j < nrows three_zones)%nat ∧ i ≠ j ∧
    row d' i !! "Risk_Level" = Some (VStr "High") ∧
    row d' j !! "risk_score" = Some (VNum qj) ∧ (qj == 0)%Q ∧
    row d' j !! "Risk_Level" = Some (VStr "Low").
Proof.
  assert (readings three_zones) as Hd by (by apply (bool_decide_unpack _); vm_compute).
  assert (nrows three_zones ≠ 0%nat) as Hn by (cbn; lia).
  split_and!; [reflexivity | exact Hd | exact Hn |].
  apply (detect_anomalies_extremes 0 (heap_of three_zones) 1%positive three_zones);
    [reflexivity | exact Hd | exact Hn |].
  exists (- (100 + (5 + 0)))%Q, (- (900 + ((5 # 10) + 0)))%Q.
  split_and!; [by left | by do 2 right; left |].
  vm_compute. discriminate.
Defined.

(** X3: on a non-empty table of readings whose rows all have the same raw
    measure, every row of the scored table has level Low. *)
Theorem detect_anomalies_flat_all_low `{IsolationForestAlgorithm}
    (ambient : Z) (h : gmap loc DataFrame) (r : loc) (d : DataFrame) :
  h !! r = Some d → readings d → nrows d ≠ 0%nat →
  (∀ a b, a ∈ raw_measures (feature_matrix d) →
          b ∈ raw_measures (feature_matrix d) → (a == b)%Q) →
  ∃ r' d',
    run (detect_anomalies ambient r) h = (Ok r', <[r' := d']> h) ∧
    ∀ i, (i < nrows d)%nat → row d' i !! "Risk_Level" = Some (VStr "Low").
Proof.
  intros Hr Hd Hn Hsame.
  destruct (detect_anomalies_risk_column ambient h r d Hr Hd Hn)
    as (a & l & dv & Hraw & _ & _ & Hrun & _ & _).
  assert (length (raw_measures (feature_matrix d)) = nrows d) as Hlen.
  { destruct (readings_feature_matrix d Hd Hn) as (_ & _ & _ & HX).
    unfold raw_measures. by rewrite length_fmap. }
  pose proof (lowest_le_highest a l) as Hle.
  eexists _, _. split; [exact Hrun|]. intros i Hi.
  destruct (lookup_lt_is_Some_2 (raw_measures (feature_matrix d)) i) as [s Hs];
    [by rewrite Hlen|].
  destruct (scored_frame_cells d _ a l i s Hraw Hs) as (_ & _ & _ & ->).
  do 2 f_equal. apply tier_low.
  assert (s ∈ a :: l) as Hin by (rewrite <- Hraw; by eapply list_elem_of_lookup_2).
  assert (rescaled (lowest a l) (highest a l) (- s) == 0)%Q as ->; [|done].
  apply rescaled_lowest.
  apply Qle_antisym; [|by apply lowest_le].
  apply lowest_glb. intros t Ht. rewrite <- Hraw in Hin, Ht.
  pose proof (Hsame s t Hin Ht). lra.
Qed.

Lemma detect_anomalies_flat_all_low_witness :
  heap_of flat_batch !! 1%positive = Some flat_batch ∧
  readings flat_batch ∧
  nrows flat_batch ≠ 0%nat ∧
  ∃ r' d',
    run (detect_anomalies 0 1%positive) (heap_of flat_batch)
      = (Ok r', <[r' := d']> (heap_of flat_batch)) ∧
    ∀ i, (i < nrows flat_batch)%nat → row d' i !! "Risk_Level" = Some (VStr "Low").
Proof.
  assert (readings flat_batch) as Hd by (by apply (bool_decide_unpack _); vm_compute).
  assert (nrows flat_batch ≠ 0%nat) as Hn by (cbn; lia).
  split_and!; [reflexivity | exact Hd | exact Hn |].
  apply (detect_anomalies_flat_all_low 0 (heap_of flat_batch) 1%positive flat_batch);
    [reflexivity | exact Hd | exact Hn |].
  intros a b Ha Hb.
  change (raw_measures (feature_matrix flat_batch))
    with [(- (100 + (5 + 0)))%Q; (- (100 + (5 + 0)))%Q; (- (100 + (5 + 0)))%Q] in Ha, Hb.
  set_unfold. destruct Ha as [->|[->|[->|[]]]], Hb as [->|[->|[->|[]]]]; reflexivity.
Defined.

(** X4: the rescaling reverses the order of the raw measures: on a
    non-empty table of readings, a row whose anomaly score is not above
    another row's has a risk score that is not below that row's. *)
Theorem detect_anomalies_order_reversing `{IsolationForestAlgorithm}
    (ambient : Z) (h : gmap loc DataFrame) (r : loc) (d : DataFrame) :
  h !! r = Some d → readings d → nrows d ≠ 0%nat →
  ∃ r' d',
    run (detect_anomalies ambient r) h = (Ok r', <[r' := d']> h) ∧
    ∀ i j si sj qi qj,
      row d' i !! "anomaly_score" = Some (VNum si) →
      row d' j !! "anomaly_score" = Some (VNum sj) →
      row d' i !! "risk_score" = Some (VNum qi) →
      row d' j !! "risk_score" = Some (VNum qj) →
      (si <= sj)%Q → (qj <= qi)%Q.
Proof.
  intros Hr Hd Hn.
  destruct (detect_anomalies_risk_column ambient h r d Hr Hd Hn)
    as (a & l & dv & Hraw & _ & _ & Hrun & _ & _).
  pose proof (lowest_le_highest a l) as Hle.
  eexists _, _. split; [exact Hrun|].
  assert (∀ i s q,
    row (scored_frame d (feature_matrix d)) i !! "anomaly_score" = Some (VNum s) →
    row (scored_frame d (feature_matrix d)) i !! "risk_score" = Some (VNum q) →
    q = rescaled (lowest a l) (highest a l) (- s)) as Hcell.
  { intros i s q Hs Hq.
    destruct (raw_measures (feature_matrix d) !! i) as [s'|] eqn:Hs'.
    - destruct (scored_frame_cells d _ a l i s' Hraw Hs') as (Hc1 & _ & Hc3 & _).
      rewrite Hc1 in Hs. rewrite Hc3 in Hq. congruence.
    - rewrite row_lookup in Hs. cbn [scored_frame df_columns] in Hs.
      simplify_map_eq. rewrite list_lookup_fmap, Hs' in Hs. done. }
  intros i j si sj qi qj Hsi Hsj Hqi Hqj Hle'.
  rewrite (Hcell i si qi Hsi Hqi), (Hcell j sj qj Hsj Hqj).
  apply rescaled_monotone; [done|lra].
Qed.

Lemma detect_anomalies_order_reversing_witness :
  heap_of three_zones !! 1%positive = Some three_zones ∧
  readings three_zones ∧
  nrows three_zones ≠ 0%nat ∧
  ∃ r' d',
    run (detect_anomalies 0 1%positive) (heap_of three_zones)
      = (Ok r', <[r' := d']> (heap_of three_zones)) ∧
    ∀ i j si sj qi qj,
      row d' i !! "anomaly_score" = Some (VNum si) →
      row d' j !! "anomaly_score" = Some (VNum sj) →
      row d' i !! "risk_score" = Some (VNum qi) →
      row d' j !! "risk_score" = Some (VNum qj) →
      (si <= sj)%Q → (qj <= qi)%Q.
Proof.
  assert (readings three_zones) as Hd by (by apply (bool_decide_unpack _); vm_compute).
  assert (nrows three_zones ≠ 0%nat) as Hn by (cbn; lia).
  split_and!; [reflexivity | exact Hd | exact Hn |].
  apply (detect_anomalies_order_reversing 0 (heap_of three_zones) 1%positive three_zones);
    [reflexivity | exact Hd | exact Hn].
Defined.

(** * Further properties of the injector *)

Section InjectorFrame.
Implicit Types (h : gmap loc DataFrame) (d : DataFrame) (r : loc) (w : World).

Lemma writes_only_sample_label r u : writes_only r (sample_label u r).
Proof.
  apply writes_only_bind; [auto with frame|]. intros d.
  case_decide; [auto with frame|].
  destruct (df_index d !! _); auto with frame.
Qed.

Lemma writes_only_loc_iadd r idx c k : writes_only r (loc_iadd r idx c k).
Proof.
  apply writes_only_bind; [auto with frame|]. intros d.
  destruct (df_columns d !! c); [|auto with frame].
  case_decide; [|auto with frame].
  apply writes_only_bind; auto with frame.
Qed.

Lemma writes_only_loc_set r idx c v : writes_only r (loc_set r idx c v).
Proof. apply writes_only_bind; auto with frame. Qed.

(** After the copy, the injector writes the copy only. *)
Lemma generate_live_data_frame w h r d l :
  h !! r = Some d → l ≠ fresh (dom h) →
  (run (generate_live_data w r) h).2 !! l = h !! l.
Proof.
  intros Hr Hl. unfold generate_live_data.
  rewrite run_bind, (run_copy _ _ _ Hr).
  set (r' := fresh (dom h)) in *.
  match goal with
  | |- (run ?m _).2 !! _ = _ =>
      assert (writes_only r' m) as Hw
  end.
  { apply writes_only_bind; [apply writes_only_sample_label|]. intros idx.
    apply writes_only_bind; [apply writes_only_loc_iadd|]. intros _.
    apply writes_only_bind; [apply writes_only_loc_iadd|]. intros _.
    apply writes_only_bind; [apply writes_only_loc_set|]. intros _.
    auto with frame. }
  rewrite (Hw _ l Hl). by rewrite lookup_insert_ne.
Qed.

Lemma generate_live_data_returns w h r d r' :
  h !! r = Some d →
  (run (generate_live_data w r) h).1 = Ok r' → r' = fresh (dom h).
Proof.
  intros Hr. unfold generate_live_data.
  rewrite run_bind, (run_copy _ _ _ Hr).
  repeat (rewrite run_bind;
          match goal with
          | |- context [run ?m ?h'] =>
              lazymatch m with
              | py_ret _ => fail
              | _ => destruct (run m h') as [[?|?] ?]; [|done]
              end
          end).
  cbn. by intros [= <-].
Qed.
End InjectorFrame.

(** X5: the injector works on a copy: whatever its input holds and
    whatever the outcome (also when it raises), its caller's table and
    every other frame of the caller are as they were, and a table it
    returns is a new frame. *)
Theorem generate_live_data_keeps_input
    (w : World) (h : gmap loc DataFrame) (r : loc) (d : DataFrame) :
  h !! r = Some d →
  (run (generate_live_data w r) h).2 !! r = Some d ∧
  (∀ l o, h !! l = Some o → (run (generate_live_data w r) h).2 !! l = Some o) ∧
  (∀ r', (run (generate_live_data w r) h).1 = Ok r' → r' ≠ r ∧ h !! r' = None).
Proof.
  intros Hr.
  assert (∀ l o, h !! l = Some o → l ≠ fresh (dom h)) as Hfresh
    by (intros l o Hl; by eapply fresh_not_allocated).
  split_and!.
  - rewrite (generate_live_data_frame w h r d r Hr); [done|by eapply Hfresh].
  - intros l o Hl. rewrite (generate_live_data_frame w h r d l Hr); [done|by eapply Hfresh].
  - intros r' Hret. apply (generate_live_data_returns _ _ _ _ _ Hr) in Hret as ->.
    split; [apply not_eq_sym; by eapply Hfresh|]. apply not_elem_of_dom, is_fresh.
Qed.

Lemma generate_live_data_keeps_input_witness :
  heap_of no_pressure !! 1%positive = Some no_pressure ∧
  (run (generate_live_data a_world 1%positive) (heap_of no_pressure)).1 = Raise KeyError ∧
  (run (generate_live_data a_world 1%positive) (heap_of no_pressure)).2 !! 1%positive
    = Some no_pressure ∧
  (∀ l o, heap_of no_pressure !! l = Some o →
          (run (generate_live_data a_world 1%positive) (heap_of no_pressure)).2 !! l
            = Some o) ∧
  (∀ r', (run (generate_live_data a_world 1%positive) (heap_of no_pressure)).1 = Ok r' →
         r' ≠ 1%positive ∧ heap_of no_pressure !! r' = None).
Proof.
  split_and!; [reflexivity | by vm_compute | ..];
    apply (generate_live_data_keeps_input a_world (heap_of no_pressure) 1%positive
             no_pressure); reflexivity.
Defined.

Section InjectedReadings.
Implicit Types (d : DataFrame) (w : World).

Lemma at_label_shifted_finite idx index k col :
  Forall is_finite col → Forall is_finite (at_label idx index (shifted k) col).
Proof.
  intros Hcol. apply Forall_lookup. intros j v Hv.
  rewrite at_label_lookup in Hv.
  destruct (index !! j) as [l|]; [|done]. cbn in Hv.
  destruct (col !! j) as [a|] eqn:Ha; [|done]. cbn in Hv.
  pose proof (Forall_lookup_1 _ _ _ _ Hcol Ha) as Hfin.
  injection Hv as <-. case_decide; [|done]. by destruct a as [[q|]|].
Qed.

(** The injected frame is again a table of readings. *)
Lemma injected_frame_readings w d idx :
  readings d → readings (injected_frame w d idx).
Proof.
  intros [Hwf Hcols]. pose proof Hcols as Hcols'.
  rewrite Forall_forall in Hcols.
  apply feature_columns_cases in Hcols as [Hu Hp]. unfold numeric_column in Hu, Hp.
  destruct (df_columns d !! "Water_Usage_Liters") as [usage|] eqn:Husage; [|done].
  destruct (df_columns d !! "Pressure") as [pressure|] eqn:Hpressure; [|done].
  assert (length (default (replicate (nrows d) VNaN) (df_columns d !! "Date")) = nrows d)
    as Hdate.
  { destruct (df_columns d !! "Date") as [date|] eqn:Hd; cbn.
    - by eapply (Hwf _ _).
    - by rewrite length_replicate. }
  split.
  - unfold well_formed, injected_frame. rewrite Husage, Hpressure.
    cbn [default from_option id df_columns nrows df_index].
    repeat apply map_Forall_insert_2;
      [apply at_label_length; first [exact Hdate | by eapply (Hwf _ _)]..|apply Hwf].
  - apply Forall_forall, feature_columns_cases. unfold numeric_column.
    rewrite injected_frame_usage, injected_frame_pressure, Husage, Hpressure.
    split; by apply at_label_shifted_finite.
Qed.
End InjectedReadings.

(** * Loading the data: the injector, then the scorer *)

Section LoadData.
Context `{IsolationForestAlgorithm}.
Implicit Types (h : gmap loc DataFrame) (d : DataFrame) (r : loc) (w : World).

Lemma tier_cases x : tier x ∈ ["Low"; "Medium"; "High"].
Proof. unfold tier. destruct (fge x 70), (fge x 40); set_solver. Qed.

Lemma scored_frame_level d X i :
  (i < length X)%nat →
  ∃ level, row (scored_frame d X) i !! "Risk_Level" = Some (VStr level) ∧
           level ∈ ["Low"; "Medium"; "High"].
Proof.
  intros Hi. rewrite row_lookup. cbn [scored_frame df_columns]. simplify_map_eq.
  destruct (lookup_lt_is_Some_2 (risk_scores X) i) as [x Hx].
  { unfold risk_scores, scaler_transform, raw_measures. by rewrite !length_fmap. }
  exists (tier x). rewrite list_lookup_fmap, Hx. split; [done|apply tier_cases].
Qed.
End LoadData.

(** X6: on a non-empty table of readings, loading the data succeeds
    whatever the draws and the clock: the injector's table is again a
    table of readings, the scorer accepts it, the table shown has the
    labels of the table read, every row has one of the three levels, and
    the table read is still as it was. *)
Theorem load_data_succeeds `{IsolationForestAlgorithm}
    (w : World) (ambient : Z) (h : gmap loc DataFrame) (r : loc) (d : DataFrame) :
  h !! r = Some d → readings d → nrows d ≠ 0%nat →
  ∃ r1 d1 r2 d2,
    run (load_data w ambient r) h = (Ok r2, <[r2 := d2]> (<[r1 := d1]> h)) ∧
    r1 ≠ r ∧ r2 ≠ r ∧ r2 ≠ r1 ∧
    (<[r2 := d2]> (<[r1 := d1]> h)) !! r = Some d ∧
    readings d1 ∧
    df_index d2 = df_index d ∧
    well_formed d2 ∧
    (∀ c, c ∉ score_columns → df_columns d2 !! c = df_columns d1 !! c) ∧
    (∀ i, (i < nrows d)%nat →
          ∃ level, row d2 i !! "Risk_Level" = Some (VStr level) ∧
                   level ∈ ["Low"; "Medium"; "High"]).
Proof.
  intros Hr Hd Hn.
  destruct (generate_live_data_readings w h r d Hr Hd Hn) as (idx & _ & Hlive).
  set (r1 := fresh (dom h)) in *. set (d1 := injected_frame w d idx) in *.
  assert (readings d1) as Hd1 by (by apply injected_frame_readings).
  assert (nrows d1 ≠ 0%nat) as Hn1 by done.
  assert ((<[r1 := d1]> h) !! r1 = Some d1) as Hr1 by apply lookup_insert_eq.
  pose proof (detect_anomalies_readings ambient _ r1 d1 Hr1 Hd1 Hn1) as Hscore.
  set (r2 := fresh (dom (<[r1 := d1]> h))) in *.
  destruct (readings_feature_matrix d1 Hd1 Hn1) as (_ & _ & _ & HX).
  assert (r1 ≠ r) as Hne1 by (apply not_eq_sym; by eapply fresh_not_allocated).
  assert (r2 ≠ r1) as Hne21 by (apply not_eq_sym; by eapply fresh_not_allocated).
  assert (r2 ≠ r) as Hne2.
  { apply not_eq_sym. eapply (fresh_not_allocated (<[r1 := d1]> h)).
    by rewrite lookup_insert_ne. }
  exists r1, d1, r2, (scored_frame d1 (feature_matrix d1)).
  split_and!; [| done | done | done | | done | done | | |].
  - unfold load_data. rewrite run_bind, Hlive, run_bind, Hscore. done.
  - by rewrite !lookup_insert_ne.
  - by apply scored_frame_well_formed; [apply Hd1|].
  - intros c Hc. by apply scored_frame_other.
  - intros i Hi. apply scored_frame_level. by rewrite HX.
Qed.

Lemma load_data_succeeds_witness :
  heap_of three_zones !! 1%positive = Some three_zones ∧
  readings three_zones ∧
  nrows three_zones ≠ 0%nat ∧
  ∃ r1 d1 r2 d2,
    run (load_data a_world 0 1%positive) (heap_of three_zones)
      = (Ok r2, <[r2 := d2]> (<[r1 := d1]> (heap_of three_zones))) ∧
    r1 ≠ 1%positive ∧ r2 ≠ 1%positive ∧ r2 ≠ r1 ∧
    (<[r2 := d2]> (<[r1 := d1]> (heap_of three_zones))) !! 1%positive = Some three_zones ∧
    readings d1 ∧
    df_index d2 = df_index three_zones ∧
    well_formed d2 ∧
    (∀ c, c ∉ score_columns → df_columns d2 !! c = df_columns d1 !! c) ∧
    (∀ i, (i < nrows three_zones)%nat →
          ∃ level, row d2 i !! "Risk_Level" = Some (VStr level) ∧
                   level ∈ ["Low"; "Medium"; "High"]).
Proof.
  assert (readings three_zones) as Hd by (by apply (bool_decide_unpack _); vm_compute).
  assert (nrows three_zones ≠ 0%nat) as Hn by (cbn; lia).
  split_and!; [reflexivity | exact Hd | exact Hn |].
  apply (load_data_succeeds a_world 0 (heap_of three_zones) 1%positive three_zones);
    [reflexivity | exact Hd | exact Hn].
Defined.

(** * Failures of the injector on a table with rows *)

Section InjectorErrors.
Implicit Types (h : gmap loc DataFrame) (d : DataFrame) (r : loc) (w : World).

Lemma mapM_fails {A B} (f : A → outcome B) (l : list A) a e :
  a ∈ l → f a = Raise e → ∃ e', mapM f l = Raise e'.
Proof.
  induction l as [|b l IH]; intros Ha Hf; [by apply elem_of_nil in Ha|].
  cbn. destruct (f b) as [y|e1] eqn:Hb; cbn; [|by eexists].
  apply elem_of_cons in Ha as [->|Ha]; [congruence|].
  destruct (IH Ha Hf) as [e' ->]. by eexists.
Qed.

Lemma at_labelM_text idx index k col j s :
  index !! j = Some idx → col !! j = Some (VStr s) →
  at_labelM idx index (λ v, add v k) col = Raise TypeError.
Proof.
  intros Hj Hs.
  destruct (mapM_fails
              (λ la : Z * value, if decide (la.1 = idx) then add la.2 k else Ok la.2)
              (zip index col) (idx, VStr s) TypeError) as [e He].
  - apply list_elem_of_lookup. exists j. by rewrite lookup_zip_with, Hj, Hs.
  - cbn. by rewrite decide_True.
  - unfold at_labelM. rewrite He. f_equal. exact (at_labelM_raises idx index k col e He).
Qed.
End InjectorErrors.

(** X7: on a table with rows, the injector raises [KeyError] when the
    usage column is missing, or when the usage column holds numbers and
    the pressure column is missing, and raises [TypeError] when the usage
    cell of a row that carries the sampled label holds a text. *)
Theorem generate_live_data_bad_columns
    (w : World) (h : gmap loc DataFrame) (r : loc) (d : DataFrame) :
  h !! r = Some d → nrows d ≠ 0%nat →
  (df_columns d !! "Water_Usage_Liters" = None →
   (run (generate_live_data w r) h).1 = Raise KeyError) ∧
  (numeric_column d "Water_Usage_Liters" → df_columns d !! "Pressure" = None →
   (run (generate_live_data w r) h).1 = Raise KeyError) ∧
  (∀ usage idx j s,
     df_columns d !! "Water_Usage_Liters" = Some usage →
     df_index d !! sampled_position w (nrows d) = Some idx →
     df_index d !! j = Some idx → usage !! j = Some (VStr s) →
     (run (generate_live_data w r) h).1 = Raise TypeError).
Proof.
  intros Hr Hn. unfold generate_live_data.
  rewrite run_bind, (run_copy _ _ _ Hr).
  set (r' := fresh (dom h)).
  destruct (run_sample_label (<[r' := d]> h) r' d w) as (idx & Hidx & Hsample);
    [apply lookup_insert_eq | done |].
  rewrite run_bind, Hsample.
  assert (idx ∈ df_index d) as Hin by (by eapply list_elem_of_lookup_2).
  split_and!.
  - intros Hnone. rewrite run_bind. unfold loc_iadd at 1.
    rewrite run_bind, (run_deref _ r' d) by apply lookup_insert_eq. by rewrite Hnone.
  - intros Hu Hnone. unfold numeric_column in Hu.
    destruct (df_columns d !! "Water_Usage_Liters") as [usage|] eqn:Husage; [|done].
    rewrite run_bind, (run_loc_iadd_at _ _ _ _ _ _ usage) by done.
    rewrite run_bind. unfold loc_iadd at 1.
    rewrite run_bind, (run_deref _ r' _) by apply lookup_insert_eq.
    cbn [df_columns]. by rewrite lookup_insert_ne, Hnone.
  - intros usage idx' j s Husage Hidx' Hj Hs.
    rewrite Hidx in Hidx'. injection Hidx' as <-.
    rewrite run_bind. unfold loc_iadd at 1.
    rewrite run_bind, (run_deref _ r' d) by apply lookup_insert_eq.
    rewrite Husage, decide_True by done.
    by rewrite run_bind, run_lift, (at_labelM_text _ _ _ _ j s).
Qed.

Lemma generate_live_data_bad_columns_witness :
  heap_of no_pressure !! 1%positive = Some no_pressure ∧
  nrows no_pressure ≠ 0%nat ∧
  numeric_column no_pressure "Water_Usage_Liters" ∧
  df_columns no_pressure !! "Pressure" = None ∧
  (run (generate_live_data a_world 1%positive) (heap_of no_pressure)).1 = Raise KeyError.
Proof.
  assert (numeric_column no_pressure "Water_Usage_Liters") as Hu
    by (by apply (bool_decide_unpack _); vm_compute).
  split_and!; [reflexivity | cbn; lia | exact Hu | reflexivity |].
  apply (generate_live_data_bad_columns a_world (heap_of no_pressure) 1%positive
           no_pressure); [reflexivity | cbn; lia | exact Hu | reflexivity].
Defined.

(** X8: on a non-empty table of readings that has no date column, the
    injector still succeeds: the table it returns has a date column, with
    the time stamp in the rows that carry the sampled label and NaN in all
    other rows. *)
Theorem generate_live_data_creates_date
    (w : World) (h : gmap loc DataFrame) (r : loc) (d : DataFrame) :
  h !! r = Some d → readings d → nrows d ≠ 0%nat →
  df_columns d !! "Date" = None →
  ∃ r' d' idx,
    run (generate_live_data w r) h = (Ok r', <[r' := d']> h) ∧
    df_index d !! sampled_position w (nrows d) = Some idx ∧
    dom (df_columns d') = {["Date"]} ∪ dom (df_columns d) ∧
    ∀ j l, df_index d !! j = Some l →
           row d' j !! "Date"
             = Some (if decide (l = idx) then VStr (timestamp w) else VNaN).
Proof.
  intros Hr Hd Hn Hnone.
  destruct (generate_live_data_readings w h r d Hr Hd Hn) as (idx & Hidx & Hrun).
  exists (fresh (dom h)), (injected_frame w d idx), idx.
  split_and!; [exact Hrun | exact Hidx | |].
  - destruct Hd as [_ Hcols]. rewrite Forall_forall in Hcols.
    apply feature_columns_cases in Hcols as [Hu Hp]. unfold numeric_column in Hu, Hp.
    destruct (df_columns d !! "Water_Usage_Liters") as [usage|] eqn:Husage; [|done].
    destruct (df_columns d !! "Pressure") as [pressure|] eqn:Hpressure; [|done].
    apply (elem_of_dom_2 (D := gset string)) in Husage, Hpressure.
    cbn. rewrite !dom_insert_L. set_solver.
  - intros j l Hj. rewrite row_lookup, injected_frame_date, Hnone. cbn.
    rewrite at_label_lookup, Hj. cbn.
    rewrite lookup_replicate_2 by (by eapply lookup_lt_Some). done.
Qed.

Lemma generate_live_data_creates_date_witness :
  heap_of undated !! 1%positive = Some undated ∧
  readings undated ∧
  nrows undated ≠ 0%nat ∧
  df_columns undated !! "Date" = None ∧
  ∃ r' d' idx,
    run (generate_live_data a_world 1%positive) (heap_of undated)
      = (Ok r', <[r' := d']> (heap_of undated)) ∧
    df_index undated !! sampled_position a_world (nrows undated) = Some idx ∧
    dom (df_columns d') = {["Date"]} ∪ dom (df_columns undated) ∧
    ∀ j l, df_index undated !! j = Some l →
           row d' j !! "Date"
             = Some (if decide (l = idx) then VStr (timestamp a_world) else VNaN).
Proof.
  assert (readings undated) as Hd by (by apply (bool_decide_unpack _); vm_compute).
  assert (nrows undated ≠ 0%nat) as Hn by (cbn; lia).
  split_and!; [reflexivity | exact Hd | exact Hn | reflexivity |].
  apply (generate_live_data_creates_date a_world (heap_of undated) 1%positive undated);
    [reflexivity | exact Hd | exact Hn | reflexivity].
Defined.

(** X9: loading the data fails in the injector, before any scoring, when
    the table read has no row ([ValueError]) and when it has rows but no
    usage column ([KeyError]); the only new frame is then the injector's
    copy. *)
Theorem load_data_failures `{IsolationForestAlgorithm}
    (w : World) (ambient : Z) (h : gmap loc DataFrame) (r : loc) (d : DataFrame) :
  h !! r = Some d →
  (nrows d = 0%nat →
   run (load_data w ambient r) h = (Raise ValueError, <[fresh (dom h) := d]> h)) ∧
  (nrows d ≠ 0%nat → df_columns d !! "Water_Usage_Liters" = None →
   run (load_data w ambient r) h = (Raise KeyError, <[fresh (dom h) := d]> h)).
Proof.
  intros Hr. split.
  - intros Hn. unfold load_data.
    by rewrite run_bind, (generate_live_data_empty w h r d Hr Hn).
  - intros Hn Hnone. unfold load_data.
    assert (run (generate_live_data w r) h = (Raise KeyError, <[fresh (dom h) := d]> h))
      as Hlive; [|by rewrite run_bind, Hlive].
    unfold generate_live_data. rewrite run_bind, (run_copy _ _ _ Hr).
    set (r' := fresh (dom h)).
    destruct (run_sample_label (<[r' := d]> h) r' d w) as (idx & Hidx & Hsample);
      [apply lookup_insert_eq | done |].
    rewrite run_bind, Hsample, run_bind. unfold loc_iadd at 1.
    rewrite run_bind, (run_deref _ r' d) by apply lookup_insert_eq. by rewrite Hnone.
Qed.

Lemma load_data_failures_witness :
  heap_of no_rows !! 1%positive = Some no_rows ∧
  nrows no_rows = 0%nat ∧
  run (load_data a_world 0 1%positive) (heap_of no_rows)
    = (Raise ValueError, <[fresh (dom (heap_of no_rows)) := no_rows]> (heap_of no_rows)).
Proof.
  split_and!; [reflexivity | reflexivity |].
  apply (load_data_failures a_world 0 (heap_of no_rows) 1%positive no_rows); reflexivity.
Defined.

(** * The dashboard's reading of the scored table *)

Section Kpi.
Context `{IsolationForestAlgorithm}.

Lemma count_true_cons b mask :
  count_true (b :: mask) = ((if b then 1 else 0) + count_true mask)%nat.
Proof.
  unfold count_true. rewrite filter_cons. destruct b.
  - by rewrite decide_True.
  - by rewrite decide_False.
Qed.

Lemma tier_counts (l : list float) :
  (count_true (series_eq ((λ x, VStr (tier x)) <$> l) "High")
   + count_true (series_eq ((λ x, VStr (tier x)) <$> l) "Medium")
   + count_true (series_eq ((λ x, VStr (tier x)) <$> l) "Low") = length l)%nat.
Proof.
  induction l as [|x l IH]; [done|].
  unfold series_eq in *. cbn [fmap list_fmap length]. rewrite !count_true_cons.
  rewrite <- IH. cbn [eq_str].
  pose proof (tier_cases x) as Hx. rewrite !elem_of_cons in Hx.
  destruct Hx as [->|[->|[->|Hx]]]; [..|by apply elem_of_nil in Hx];
    repeat match goal with
           | |- context [bool_decide (?a = ?b)] =>
               let v := eval vm_compute in (bool_decide (a = b)) in
               change (bool_decide (a = b)) with v
           end; cbv iota; lia.
Qed.
End Kpi.

(** X10: on the table the scorer returns for a non-empty table of
    readings, the three KPI counts are defined and add up to the number
    of rows: every row is counted on exactly one card. *)
Theorem kpi_counts_partition `{IsolationForestAlgorithm}
    (ambient : Z) (h : gmap loc DataFrame) (r : loc) (d : DataFrame) :
  h !! r = Some d → readings d → nrows d ≠ 0%nat →
  ∃ r' d' high medium low,
    run (detect_anomalies ambient r) h = (Ok r', <[r' := d']> h) ∧
    kpi_counts d' = Ok (high, medium, low) ∧
    (high + medium + low = nrows d)%nat.
Proof.
  intros Hr Hd Hn.
  pose proof (detect_anomalies_readings ambient h r d Hr Hd Hn) as Hrun.
  destruct (readings_feature_matrix d Hd Hn) as (_ & _ & _ & HX).
  eexists _, _, _, _, _. split; [exact Hrun|].
  unfold kpi_counts, column. cbn [scored_frame df_columns].
  rewrite lookup_insert_eq. cbn [outcome_bind]. split; [reflexivity|].
  rewrite tier_counts. unfold risk_scores, scaler_transform, raw_measures.
  by rewrite !length_fmap.
Qed.

Lemma kpi_counts_partition_witness :
  heap_of three_zones !! 1%positive = Some three_zones ∧
  readings three_zones ∧
  nrows three_zones ≠ 0%nat ∧
  ∃ r' d' high medium low,
    run (detect_anomalies 0 1%positive) (heap_of three_zones)
      = (Ok r', <[r' := d']> (heap_of three_zones)) ∧
    kpi_counts d' = Ok (high, medium, low) ∧
    (high + medium + low = nrows three_zones)%nat.
Proof.
  assert (readings three_zones) as Hd by (by apply (bool_decide_unpack _); vm_compute).
  assert (nrows three_zones ≠ 0%nat) as Hn by (cbn; lia).
  split_and!; [reflexivity | exact Hd | exact Hn |].
  apply (kpi_counts_partition 0 (heap_of three_zones) 1%positive three_zones);
    [reflexivity | exact Hd | exact Hn].
Defined.

Section Markers.
Implicit Types (d : DataFrame) (row : gmap string value).


End Markers.

Section MapRows.
Implicit Types (d : DataFrame) (row : gmap string value).

End MapRows.



Section Alerts.
Implicit Types (d : DataFrame) (row : gmap string value).

Lemma mask_filter_length {A B} (mask : list bool) (l : list A) (k : list B) :
  length l = length k → length (mask_filter mask l) = length (mask_filter mask k).
Proof.
  revert l k. induction mask as [|b mask IH]; intros [|a l] [|c k]; cbn; try done.
  intros [= Hlen]. destruct b; cbn; auto.
Qed.

Lemma mask_filter_series_eq (col : list value) (t : string) :
  Forall (λ v, eq_str v t = true) (mask_filter (series_eq col t) col).
Proof.
  unfold series_eq. induction col as [|v col IH]; cbn; [done|].
  destruct (eq_str v t) eqn:Hv; [|done]. by apply Forall_cons.
Qed.

Lemma mask_filter_count {A} (mask : list bool) (l : list A) :
  length l = length mask → length (mask_filter mask l) = count_true mask.
Proof.
  revert l. induction mask as [|b mask IH]; intros [|a l]; try done.
  intros [= Hlen]. rewrite count_true_cons. cbn [mask_filter].
  destruct b; cbn [length]; rewrite IH by done; lia.
Qed.
End Alerts.

Section CriticalAlerts.
Implicit Types (d : DataFrame) (row : gmap string value).

Lemma mapM_seq {A B} (f : gmap string value → outcome B) (g : nat → gmap string value)
    (h : A → B) (l : list A) (s : nat) :
  (∀ i a, l !! i = Some a → f (g (s + i)%nat) = Ok (h a)) →
  mapM f (g <$> seq s (length l)) = Ok (h <$> l).
Proof.
  revert s. induction l as [|a l IH]; intros s Hf; [done|].
  cbn [length seq fmap list_fmap mapM].
  rewrite <- (Nat.add_0_r s) at 1. rewrite (Hf 0%nat a) by done. cbn [outcome_bind].
  rewrite (IH (S s)); [done|].
  intros i b Hb. replace (S s + i)%nat with (s + S i)%nat by lia. by apply (Hf (S i)).
Qed.

Lemma generate_explanation_high row v :
  row !! "Risk_Level" = Some v → eq_str v "High" = true →
  generate_explanation row = Ok text_high.
Proof.
  intros Hrow Hv. unfold generate_explanation, row_getitem. rewrite Hrow.
  cbn [outcome_bind]. by rewrite Hv.
Qed.

Lemma shown_column d mask n c :
  df_columns (head n (getitem_mask d mask)) !! c
    = (λ col, take n (mask_filter mask col)) <$> df_columns d !! c.
Proof.
  unfold head, getitem_mask. cbn [df_columns]. rewrite !lookup_fmap.
  by destruct (df_columns d !! c).
Qed.
End CriticalAlerts.

(** X12: on a table with one cell per row in every column that has the
    zone and level columns, the critical alerts are built without
    failure: there are as many as there are rows of level High, but at
    most two; they are for the first such rows, in row order; and the
    explanation shown in each is the text for High. *)
Theorem critical_alerts_are_high (d : DataFrame) (zones levels : list value) :
  well_formed d →
  df_columns d !! "Zone_ID" = Some zones →
  df_columns d !! "Risk_Level" = Some levels →
  ∃ alerts,
    critical_alerts d = Ok alerts ∧
    length alerts = (count_true (series_eq levels "High") `min` 2)%nat ∧
    alerts.*1 = take 2 (mask_filter (series_eq levels "High") zones) ∧
    Forall (λ a, a.2 = text_high) alerts.
Proof.
  intros Hwf Hz Hl.
  set (mask := series_eq levels "High").
  set (shown := head 2 (getitem_mask d mask)).
  set (Z := take 2 (mask_filter mask zones)).
  set (L := take 2 (mask_filter mask levels)).
  assert (length zones = length levels) as Hzl
    by (by rewrite (Hwf _ _ Hz), (Hwf _ _ Hl)).
  assert (length (df_index d) = length zones) as Hiz by (by rewrite (Hwf _ _ Hz)).
  assert (nrows shown = length Z) as Hn.
  { unfold nrows, shown, head, getitem_mask, Z. cbn [df_index].
    by rewrite !length_take, (mask_filter_length mask (df_index d) zones). }
  assert (length L = length Z) as HLZ.
  { unfold L, Z. by rewrite !length_take, (mask_filter_length mask levels zones). }
  assert (Forall (λ v, eq_str v "High" = true) L) as HL
    by (apply Forall_take, mask_filter_series_eq).
  exists ((λ z, (z, text_high)) <$> Z).
  split_and!.
  - unfold critical_alerts, column. rewrite Hl. cbn [outcome_bind].
    fold mask. fold shown. unfold iterrows. rewrite Hn.
    apply mapM_seq. intros i z Hi. cbn [Nat.add].
    assert (row shown i !! "Zone_ID" = Some z) as Hrz.
    { rewrite row_lookup. unfold shown. rewrite shown_column, Hz. exact Hi. }
    destruct (lookup_lt_is_Some_2 L i) as [v Hv];
      [rewrite HLZ; by eapply lookup_lt_Some|].
    assert (row shown i !! "Risk_Level" = Some v) as Hrl.
    { rewrite row_lookup. unfold shown. rewrite shown_column, Hl. exact Hv. }
    unfold row_getitem. rewrite Hrz. cbn [outcome_bind].
    rewrite (generate_explanation_high _ v Hrl); [done|].
    exact (Forall_lookup_1 _ _ _ _ HL Hv).
  - rewrite length_fmap. unfold Z. rewrite length_take.
    rewrite (mask_filter_count mask zones); [lia|].
    unfold mask, series_eq. by rewrite length_fmap.
  - rewrite <- list_fmap_compose. by rewrite list_fmap_id.
  - apply Forall_fmap, Forall_forall. done.
Qed.

Lemma critical_alerts_are_high_witness :
  well_formed (scored_frame three_zones (feature_matrix three_zones)) ∧
  df_columns (scored_frame three_zones (feature_matrix three_zones)) !! "Zone_ID"
    = Some [VStr "A"; VStr "B"; VStr "C"] ∧
  df_columns (scored_frame three_zones (feature_matrix three_zones)) !! "Risk_Level"
    = Some [VStr "Low"; VStr "Low"; VStr "High"] ∧
  ∃ alerts,
    critical_alerts (scored_frame three_zones (feature_matrix three_zones)) = Ok alerts ∧
    length alerts
      = (count_true (series_eq [VStr "Low"; VStr "Low"; VStr "High"] "High") `min` 2)%nat ∧
    alerts.*1
      = take 2 (mask_filter (series_eq [VStr "Low"; VStr "Low"; VStr "High"] "High")
                  [VStr "A"; VStr "B"; VStr "C"]) ∧
    Forall (λ a, a.2 = text_high) alerts.
Proof.
  assert (readings three_zones) as Hd by (by apply (bool_decide_unpack _); vm_compute).
  assert (well_formed (scored_frame three_zones (feature_matrix three_zones))) as Hwf.
  { apply scored_frame_well_formed; [apply Hd|]. by vm_compute. }
  assert (df_columns (scored_frame three_zones (feature_matrix three_zones)) !! "Zone_ID"
          = Some [VStr "A"; VStr "B"; VStr "C"]) as Hz by (by vm_compute).
  assert (df_columns (scored_frame three_zones (feature_matrix three_zones)) !! "Risk_Level"
          = Some [VStr "Low"; VStr "Low"; VStr "High"]) as Hl by (by vm_compute).
  split_and!; [exact Hwf | exact Hz | exact Hl |].
  exact (critical_alerts_are_high _ _ _ Hwf Hz Hl).
Defined.
